(** * GameServer-Reborn: state-synchronisation core

    A shallow embedding of the request handlers and of the in-memory
    session table of the game server, followed by the properties that the
    specification states about them.

    Conventions of the embedding.
    - [Date.now()], [uuidv4()] and [Math.random()] are inputs of the
      function that calls them.
    - A JavaScript object used as a record with open fields (a session) is
      a [gmap string JSValue]; a key that is absent reads as [undefined].
    - SQL tables are lists of rows in insertion (rowid) order; a [SELECT]
      without [ORDER BY] scans them in that order.
    - The file system is a finite map from path to contents.  Calls into
      [fs] are modelled on their success path; the land write, whose
      database update precedes its [fs] calls, is modelled with its
      failure path as well ([Land.put_protoland_fs]).
    - JavaScript numbers are modelled by [Z]: every arithmetic operation
      of the modelled code is an addition or a subtraction of integers,
      which is exact on doubles below 2^53.  The number that a string
      converts to is not computed; the one comparison that can meet a
      string takes its outcome from [StringCoercion]. *)

From stdpp Require Import gmap strings list fin_maps pretty.
From Stdlib Require Import ZArith Lia.

Open Scope string_scope.
Open Scope Z_scope.

(** ** JavaScript values and truthiness *)

Inductive JSValue :=
  | JNum (z : Z)
  | JStr (s : string)
  | JBool (b : bool).

(** [!s] on a string: only the empty string is falsy. *)
Definition truthy_str (s : string) : bool := negb (bool_decide (s = "")).

(** [!x] on a value that is a string, [null] or [undefined]. *)
Definition truthy_ostr (o : option string) : bool :=
  match o with
  | Some s => truthy_str s
  | None => false
  end.

(** [!n] on a value that is a number or [null]. *)
Definition truthy_onum (o : option Z) : bool :=
  match o with
  | Some z => negb (z =? 0)%Z
  | None => false
  end.

(** [a || b] on optional strings. *)
Definition or_else (a b : option string) : option string :=
  if truthy_ostr a then a else b.

(** [(x - s) > b] for numbers [x] and [b] and a string [s].  [Number(s)]
    can be [NaN], infinite or a fraction, none of which is an integer, so
    the comparison is taken from the language as a whole. *)
Class StringCoercion := string_minus_gt : Z → string → Z → bool.

(** ** lib/sessionManager.js *)

Module Presence.

(** A session is the object literal built by [trackSession]. *)
Abbreviation Session := (gmap string JSValue).

Record SessionManager := {
  activeSessions : gmap string Session;
  sessionTimeout : Z;
  cleanupInterval : Z
}.

(** [constructor()] *)
Definition constructor : SessionManager :=
  {| activeSessions := ∅;
     sessionTimeout := 5 * 60 * 1000;
     cleanupInterval := 60 * 1000 |}.

Definition with_sessions (sm : SessionManager) (m : gmap string Session)
  : SessionManager :=
  {| activeSessions := m;
     sessionTimeout := sessionTimeout sm;
     cleanupInterval := cleanupInterval sm |}.

(** [`session_${Date.now()}_${Math.random().toString(36).substr(2, 9)}`];
    [rnd] is the random suffix. *)
Definition _generateSessionId (now : Z) (rnd : string) : JSValue :=
  JStr ("session_" +:+ pretty now +:+ "_" +:+ rnd).

(** The value of [x - y] for a number [x] and a field read [y].  The
    operand is converted with [ToNumber]: a boolean is 1 or 0, an absent
    field ([undefined]) is [NaN], and a string is [Number(s)], which is
    left as it stands. *)
Inductive Difference :=
  | Diff (d : Z)
  | NaN
  | DiffString (x : Z) (s : string).

Definition minus (x : Z) (y : option JSValue) : Difference :=
  match y with
  | Some (JNum t) => Diff (x - t)
  | Some (JBool b) => Diff (x - (if b then 1 else 0))
  | Some (JStr s) => DiffString x s
  | None => NaN
  end.

(** [a > b]: a comparison with [NaN] is false. *)
Definition gt `{StringCoercion} (a : Difference) (b : Z) : bool :=
  match a with
  | Diff d => (b <? d)%Z
  | NaN => false
  | DiffString x s => string_minus_gt x s b
  end.

(** [_isSessionStale(session)] *)
Definition _isSessionStale `{StringCoercion} (sm : SessionManager) (now : Z)
    (session : Session) : bool :=
  gt (minus now (session !! "lastActive")) (sessionTimeout sm).

(** The six fixed properties of the object literal, before the spread. *)
Definition session_literal (now : Z) (userId mayhemId hostname : string)
    (connectedAt sessionId : option JSValue) : Session :=
  let put k (o : option JSValue) (m : Session) : Session :=
    match o with Some v => <[k:=v]> m | None => m end in
  put "sessionId" sessionId
    (put "connectedAt" connectedAt
      (<["lastActive":=JNum now]>
        (<["hostname":=JStr hostname]>
          (<["mayhemId":=JStr mayhemId]>
            (<["userId":=JStr userId]> ∅))))).

(** [trackSession(userId, mayhemId, hostname, additionalData)].
    The properties of [additionalData] are spread last, so they win over
    the six fixed ones: [additionalData ∪ literal] is left-biased. *)
Definition trackSession (sm : SessionManager) (now : Z) (rnd : string)
    (userId mayhemId hostname : string) (additionalData : Session)
  : bool * SessionManager :=
  if negb (truthy_str userId) || negb (truthy_str mayhemId) then (false, sm)
  else
    let connectedAt :=
      match activeSessions sm !! userId with
      | Some s => s !! "connectedAt"
      | None => Some (JNum now)
      end in
    let sessionId :=
      match activeSessions sm !! userId with
      | Some s => s !! "sessionId"
      | None => Some (_generateSessionId now rnd)
      end in
    let obj :=
      additionalData
        ∪ session_literal now userId mayhemId hostname connectedAt sessionId in
    (true, with_sessions sm (<[userId:=obj]> (activeSessions sm))).

(** [getSession(userId)]: the session if it is fresh; a stale session is
    deleted and [null] returned. *)
Definition getSession `{StringCoercion} (sm : SessionManager) (now : Z)
    (userId : string) : option Session * SessionManager :=
  match activeSessions sm !! userId with
  | Some session =>
      if negb (_isSessionStale sm now session) then (Some session, sm)
      else (None, with_sessions sm (delete userId (activeSessions sm)))
  | None => (None, sm)
  end.

(** [updateActivity(userId)] *)
Definition updateActivity (sm : SessionManager) (now : Z) (userId : string)
  : bool * SessionManager :=
  match activeSessions sm !! userId with
  | Some session =>
      (true, with_sessions sm
               (<[userId:=<["lastActive":=JNum now]> session]> (activeSessions sm)))
  | None => (false, sm)
  end.

(** [setVisitingFriend(userId, visitingFriendId)] *)
Definition setVisitingFriend (sm : SessionManager) (now : Z)
    (userId visitingFriendId : string) : bool * SessionManager :=
  match activeSessions sm !! userId with
  | Some session =>
      (true, with_sessions sm
               (<[userId:=<["visitStartTime":=JNum now]>
                            (<["visitingFriendId":=JStr visitingFriendId]> session)]>
                  (activeSessions sm)))
  | None => (false, sm)
  end.

(** [endSession(userId)] *)
Definition endSession (sm : SessionManager) (userId : string)
  : bool * SessionManager :=
  (bool_decide (is_Some (activeSessions sm !! userId)),
   with_sessions sm (delete userId (activeSessions sm))).

(** The body of the [setInterval] callback of [startCleanupTimer]. *)
Definition cleanup `{StringCoercion} (sm : SessionManager) (now : Z)
  : SessionManager :=
  with_sessions sm
    (filter (λ kv, _isSessionStale sm now kv.2 = false) (activeSessions sm)).

(** The dashboard's [isOnline: session ? true : false] with
    [session = sessionManager.getSession(userId)]. *)
Definition isOnline `{StringCoercion} (sm : SessionManager) (now : Z)
    (userId : string) : bool :=
  match (getSession sm now userId).1 with
  | Some _ => true
  | None => false
  end.

(** Truthiness of a property value. *)
Definition truthy_js (v : option JSValue) : bool :=
  match v with
  | Some (JNum z) => negb (z =? 0)%Z
  | Some (JStr s) => truthy_str s
  | Some (JBool b) => b
  | None => false
  end.

(** [getVisitingFriend(userId)] *)
Definition getVisitingFriend (sm : SessionManager) (userId : string)
  : option JSValue :=
  match activeSessions sm !! userId with
  | Some session =>
      if truthy_js (session !! "visitingFriendId")
      then session !! "visitingFriendId"
      else None
  | None => None
  end.

(** [clearVisitingFriend(userId)] *)
Definition clearVisitingFriend (sm : SessionManager) (userId : string)
  : bool * SessionManager :=
  match activeSessions sm !! userId with
  | Some session =>
      (true, with_sessions sm
               (<[userId:=delete "visitStartTime"
                            (delete "visitingFriendId" session)]>
                  (activeSessions sm)))
  | None => (false, sm)
  end.

(** [getActivePlayerCount()]: the length of the array that
    [getAllActiveSessions] builds, one element for each session that is
    not stale; the stale ones are deleted on the way. *)
Definition getActivePlayerCount `{StringCoercion} (sm : SessionManager)
    (now : Z) : nat * SessionManager :=
  (size (filter (λ kv, _isSessionStale sm now kv.2 = false) (activeSessions sm)),
   cleanup sm now).

(** [clearAllSessions()] *)
Definition clearAllSessions (sm : SessionManager) : SessionManager :=
  with_sessions sm ∅.

End Presence.

(** ** What the handlers take from outside the sources

    protobufjs with the message types of TappedOut.proto, SQLite's
    comparison of an [INT] column with a text argument, and the two
    entries of config.json that the handlers read. *)

(** Fields of a message that the handlers never read: field number and
    raw value. *)
Abbreviation UnknownFields := (list (Z * list Byte.byte)).

(** [Data.LandMessage.FriendListData] as the land handler builds it. *)
Record FriendListData := {
  header_id : Z;
  friendID : string;
  hasBeenVisited : bool;
  hideInMap : bool;
  isOrigin : bool
}.

(** [Data.LandMessage] *)
Record LandMessage := {
  land_id : string;
  friendListData : list FriendListData;
  land_fields : UnknownFields
}.

(** [Data.EventMessage.EventData] *)
Record EventData := {
  displayName : string;
  displayNameLen : Z;
  eventData_fields : UnknownFields
}.

(** [Data.EventMessage]; an absent string field decodes to [""]. *)
Record EventMessage := {
  event_id : string;
  fromPlayerId : string;
  toPlayerId : string;
  eventData : option EventData;
  event_fields : UnknownFields
}.

(** [Data.CurrencyData] *)
Record CurrencyData := {
  currency_id : string;
  vcTotalPurchased : Z;
  vcTotalAwarded : Z;
  vcBalance : Z;
  currency_createdAt : Z;
  currency_updatedAt : Z
}.

(** [Data.CurrencyDelta]; [amount] decodes to a number, which the
    handler adds without conversion. *)
Record CurrencyDelta := {
  delta_id : Z;
  amount : Z;
  delta_fields : UnknownFields
}.

(** [Data.ExtraLandMessage] *)
Record ExtraLandMessage := {
  currencyDelta : list CurrencyDelta;
  extra_fields : UnknownFields
}.

(** [Data.ExtraLandResponse] *)
Record ExtraLandResponse := {
  processedCurrencyDelta : list CurrencyDelta;
  processedEvent : UnknownFields;
  receivedEvent : UnknownFields;
  communityGoal : UnknownFields
}.

Class Platform := {
  (** contents of a file, of a request body and of a binary response *)
  Bytes : Type;
  (** [st.size] *)
  byteLength : Bytes → nat;
  (** [Type.decode], [None] when it throws, and [Type.encode(m).finish()] *)
  decodeLand : Bytes → option LandMessage;
  encodeLand : LandMessage → Bytes;
  decodeEvent : Bytes → option EventMessage;
  decodeEvents : Bytes → option (list EventMessage);
  encodeEvents : list EventMessage → Bytes;
  decodeCurrency : Bytes → option CurrencyData;
  encodeCurrency : CurrencyData → Bytes;
  decodeExtraLand : Bytes → option ExtraLandMessage;
  encodeExtraLandResponse : ExtraLandResponse → Bytes;
  encodeTokenResponse : string → string → Bytes;
  (** [UserId = ?] with a text argument *)
  int_eq_text : Z → string → bool;
  (** [s.length] of a JavaScript string (UTF-16 code units) *)
  js_length : string → Z;
  (** config.json *)
  dataDirectory : string;
  startingDonuts : Z
}.

(** Decoding what was encoded gives the message back. *)
Class EventsRoundTrip `{Platform} :=
  events_round_trip : ∀ l : list EventMessage, decodeEvents (encodeEvents l) = Some l.

(** [Data.DeleteTokenRequest] and [Data.DeleteTokenResponse]: the token
    field of a decoded request, [""] when it is absent, and the encoding
    of a response with the given result. *)
Class TokenCodec `{Platform} := {
  decodeDeleteTokenRequest : Bytes → option string;
  encodeDeleteTokenResponse : string → Bytes
}.

(** Decoding an encoded currency record gives the record back. *)
Class CurrencyRoundTrip `{Platform} :=
  currency_round_trip : ∀ c : CurrencyData, decodeCurrency (encodeCurrency c) = Some c.

(** ** The database (schema of the initialisation script) *)

Record UserRow := {
  MayhemId : option string;
  UserId : option Z;
  UserName : option string;
  UserAccessToken : option string;
  WholeLandToken : option string;
  LandSavePath : option string;
  CurrencySavePath : option string;
  LastPlayedTime : option Z
}.

(** The initialisation script, the only place in the sources that
    creates [Friends], declares four columns and no constraint: neither
    a primary key nor a unique index. *)
Record FriendRow := {
  ownerMayhemId : option string;
  friendMayhemId : option string;
  status : string;
  createdAt : Z
}.

(** [column = ?] on a [TEXT] column: [NULL] equals nothing. *)
Definition sql_eq (column arg : option string) : bool :=
  match column, arg with
  | Some x, Some y => bool_decide (x = y)
  | _, _ => false
  end.

Definition set_status (s : string) (r : FriendRow) : FriendRow :=
  {| ownerMayhemId := ownerMayhemId r;
     friendMayhemId := friendMayhemId r;
     status := s;
     createdAt := createdAt r |}.

(** [UPDATE Friends SET status = s WHERE p] *)
Definition sql_update (p : FriendRow → bool) (s : string) (t : list FriendRow)
  : list FriendRow :=
  map (λ r, if p r then set_status s r else r) t.

(** [DELETE FROM Friends WHERE p] *)
Definition sql_delete (p : FriendRow → bool) (t : list FriendRow) : list FriendRow :=
  List.filter (λ r, negb (p r)) t.

(** [result.changes] after [const result = await dbRun(...)].  In
    lib/db.js [dbRun] calls [db.run] and resolves to the statement
    ([resolve(this)]), whose [changes] is the number of rows that the
    [UPDATE] or [DELETE] with condition [p] touched; [dbGet] resolves to
    the first row of a [SELECT] or to [undefined]. *)
Definition changes (p : FriendRow → bool) (t : list FriendRow) : nat :=
  length (List.filter p t).

(** [INSERT INTO Friends ... VALUES (?, ?, ?, ?)]; [INSERT OR IGNORE] is the
    same statement on this table, which has no constraint to violate. *)
Definition sql_insert (owner friend : option string) (s : string) (at_ : Z)
    (t : list FriendRow) : list FriendRow :=
  (t ++ [ {| ownerMayhemId := owner; friendMayhemId := friend;
             status := s; createdAt := at_ |} ])%list.

(** [ownerMayhemId = a AND friendMayhemId = b] *)
Definition edge (a b : option string) (r : FriendRow) : bool :=
  sql_eq (ownerMayhemId r) a && sql_eq (friendMayhemId r) b.

Definition has_status (s : string) (r : FriendRow) : bool :=
  bool_decide (status r = s).

(** [SELECT 1 FROM Friends WHERE ownerMayhemId = ? AND friendMayhemId = ?
    AND status = 'accepted' LIMIT 1], the land handler's FRIEND_CHECK. *)
Definition isAccepted (t : list FriendRow) (a b : string) : bool :=
  existsb (λ r, edge (Some a) (Some b) r && has_status "accepted" r) t.

(** [SELECT ... FROM UserData WHERE UserAccessToken = ?] *)
Definition userByToken (users : list UserRow) (token : string) : option UserRow :=
  List.find (λ u, sql_eq (UserAccessToken u) (Some token)) users.

(** [SELECT ... FROM UserData WHERE MayhemId = ?] *)
Definition userByMayhemId (users : list UserRow) (id : string) : option UserRow :=
  List.find (λ u, sql_eq (MayhemId u) (Some id)) users.

(** [Math.floor(Date.now() / 1000)] *)
Definition seconds (nowMs : Z) : Z := nowMs / 1000.

(** [String(x)] on a number or [null] *)
Definition String_of (o : option Z) : string :=
  match o with
  | Some z => pretty z
  | None => "null"
  end.

(** [owner.MayhemId || String(owner.UserId)] *)
Definition ownerId (u : UserRow) : string :=
  match MayhemId u with
  | Some s => if truthy_str s then s else String_of (UserId u)
  | None => String_of (UserId u)
  end.

(** The first truthy property among [keys] of a JSON body, [undefined] if
    there is none: [body?.k1 || body?.k2 || ...]. *)
Fixpoint first_truthy (body : gmap string string) (keys : list string)
  : option string :=
  match keys with
  | [] => None
  | [k] => body !! k
  | k :: ks => if truthy_ostr (body !! k) then body !! k else first_truthy body ks
  end.

(** ** Requests and responses *)

Abbreviation Headers := (gmap string string).
Abbreviation Body := (gmap string string).

Inductive Response `{Platform} :=
  | Json (code : Z) (body : gmap string JSValue)  (* res.status(code).json(body) *)
  | NoContent                                     (* res.status(204).send() *)
  | XmlError (code : Z) (type field : string)     (* <error code type field/> *)
  | LandUpdateResponse                            (* <WholeLandUpdateResponse/> *)
  | Protobuf (b : Bytes)                          (* application/x-protobuf, 200 *)
  | Plain (code : Z) (text : string)              (* res.status(code).send(text) *)
  | Next.                                         (* next(error) *)

(** A value that passed [if (!x) return ...]. *)
Definition present (o : option string) : option string :=
  if truthy_ostr o then o else None.

(** [req.headers["nucleus_token"] || req.headers["mh_auth_params"]] *)
Definition reqToken2 (h : Headers) : option string :=
  or_else (h !! "nucleus_token") (h !! "mh_auth_params").

(** [... || req.headers["authorization"] || req.headers["x-auth-token"]] *)
Definition reqToken4 (h : Headers) : option string :=
  or_else (h !! "nucleus_token")
    (or_else (h !! "mh_auth_params")
      (or_else (h !! "authorization") (h !! "x-auth-token"))).

Definition json_error (code : Z) (msg : string) `{Platform} : Response :=
  Json code {[ "error" := JStr msg ]}.

Definition json_status (code : Z) (s : string) `{Platform} : Response :=
  Json code (<["status":=JStr s]> {[ "success" := JBool true ]}).

(** ** The friend graph: invitations.controller.js and the identity proxy *)

Module Friends.
Section handlers.
Context `{Platform}.

(** [getUserByIdParam]: [WHERE MayhemId = ? OR UserId = ? LIMIT 1] *)
Definition getUserByIdParam (users : list UserRow) (idParam : string)
  : option UserRow :=
  List.find
    (λ u, sql_eq (MayhemId u) (Some idParam)
          || match UserId u with
             | Some n => int_eq_text n idParam
             | None => false
             end)
    users.

(** [POST /invitations] of the identity proxy: send a friend invitation. *)
Definition post_invitations (users : list UserRow) (friends : list FriendRow)
    (nowMs : Z) (h : Headers) (body : Body) : Response * list FriendRow :=
  match present (reqToken4 h) with
  | None => (json_error 401 "No auth token", friends)
  | Some reqToken =>
      match userByToken users reqToken with
      | None => (json_error 401 "Invalid token", friends)
      | Some owner =>
          let fromId := ownerId owner in
          match present (first_truthy body
                  ["toId"; "friendMayhemId"; "targetId"; "personaId"; "recipientId"]) with
          | None => (json_error 400 "Missing target friend ID", friends)
          | Some toId =>
              let now := seconds nowMs in
              match List.find (edge (Some fromId) (Some toId)) friends with
              | Some existing => (json_status 200 (status existing), friends)
              | None =>
                  (json_status 200 "pending",
                   sql_insert (Some fromId) (Some toId) "pending" now friends)
              end
          end
      end
  end.

(** [POST /friend/invite], the legacy route. *)
Definition post_friend_invite (friends : list FriendRow) (nowMs : Z) (body : Body)
  : Response * list FriendRow :=
  match present (body !! "fromId"), present (body !! "toId") with
  | Some fromId, Some toId =>
      match List.find (edge (Some fromId) (Some toId)) friends with
      | Some existing =>
          (Json 409 (<["status":=JStr (status existing)]>
                       {[ "error" := JStr "Friend request already exists" ]}),
           friends)
      | None =>
          (json_status 200 "pending",
           sql_insert (Some fromId) (Some toId) "pending" (seconds nowMs) friends)
      end
  | _, _ => (json_error 400 "Missing fromId or toId", friends)
  end.

(** [POST /:userId/invitations/inbound/:fromUserId]: accept an invitation. *)
Definition post_invitations_inbound (users : list UserRow)
    (friends : list FriendRow) (nowMs : Z) (userId fromUserIdParam : string)
  : Response * list FriendRow :=
  match getUserByIdParam users userId, getUserByIdParam users fromUserIdParam with
  | Some user, Some fromUser =>
      (* Update original invitation to accepted *)
      let p r := edge (MayhemId fromUser) (MayhemId user) r && has_status "pending" r in
      if bool_decide (changes p friends = 0%nat) then (NoContent, friends)
      else
        (* Create reciprocal friendship *)
        (NoContent,
         sql_insert (MayhemId user) (MayhemId fromUser) "accepted" (seconds nowMs)
           (sql_update p "accepted" friends))
  | _, _ => (NoContent, friends)
  end.

(** [POST /friends/confirmInvitation] of the identity proxy; its comment
    reads "Update friend status to accepted (both directions)". *)
Definition post_friends_confirmInvitation (users : list UserRow)
    (friends : list FriendRow) (h : Headers) (body : Body)
  : Response * list FriendRow :=
  match present (reqToken4 h) with
  | None => (json_error 401 "No auth token", friends)
  | Some reqToken =>
      match userByToken users reqToken with
      | None => (json_error 401 "Invalid token", friends)
      | Some owner =>
          let userId := ownerId owner in
          match present (first_truthy body ["fromId"; "senderId"; "friendId"]) with
          | None => (json_error 400 "Missing sender ID", friends)
          | Some fromId =>
              (json_status 200 "accepted",
               sql_update
                 (λ r, edge (Some fromId) (Some userId) r
                       || edge (Some userId) (Some fromId) r)
                 "accepted" friends)
          end
      end
  end.

(** [POST /friends/deleteFriend] of the identity proxy. *)
Definition post_friends_deleteFriend (users : list UserRow)
    (friends : list FriendRow) (h : Headers) (body : Body)
  : Response * list FriendRow :=
  match present (reqToken4 h) with
  | None => (json_error 401 "No auth token", friends)
  | Some reqToken =>
      match userByToken users reqToken with
      | None => (json_error 401 "Invalid token", friends)
      | Some owner =>
          let userId := ownerId owner in
          match present (first_truthy body ["friendId"; "targetId"; "personaId"]) with
          | None => (json_error 400 "Missing friend ID", friends)
          | Some friendId =>
              (Json 200 {[ "success" := JBool true ]},
               sql_delete
                 (λ r, edge (Some userId) (Some friendId) r
                       || edge (Some friendId) (Some userId) r)
                 friends)
          end
      end
  end.


(** [POST /:userId/invitations/outbound/:toUserId]: send an invitation;
    every path answers 204. *)
Definition post_invitations_outbound (users : list UserRow)
    (friends : list FriendRow) (nowMs : Z) (fromUserId toUserIdParam : string)
  : Response * list FriendRow :=
  match getUserByIdParam users fromUserId, getUserByIdParam users toUserIdParam with
  | Some fromUser, Some toUser =>
      match List.find
              (λ r, edge (MayhemId fromUser) (MayhemId toUser) r
                    || edge (MayhemId toUser) (MayhemId fromUser) r)
              friends with
      | Some existing => (NoContent, friends)
      | None =>
          (NoContent,
           sql_insert (MayhemId fromUser) (MayhemId toUser) "pending"
             (seconds nowMs) friends)
      end
  | _, _ => (NoContent, friends)
  end.


(** [POST /friend/accept], the legacy route. *)
Definition post_friend_accept (friends : list FriendRow) (body : Body)
  : Response * list FriendRow :=
  match present (body !! "fromId"), present (body !! "acceptorId") with
  | Some fromId, Some acceptorId =>
      let p r := edge (Some fromId) (Some acceptorId) r && has_status "pending" r in
      if bool_decide (changes p friends = 0%nat)
      then (json_error 404 "Friend request not found", friends)
      else (json_status 200 "accepted", sql_update p "accepted" friends)
  | _, _ => (json_error 400 "Missing fromId or acceptorId", friends)
  end.

(** [POST /friend/decline], the legacy route. *)
Definition post_friend_decline (friends : list FriendRow) (body : Body)
  : Response * list FriendRow :=
  match present (body !! "fromId"), present (body !! "declinerId") with
  | Some fromId, Some declinerId =>
      let p r := edge (Some fromId) (Some declinerId) r && has_status "pending" r in
      if bool_decide (changes p friends = 0%nat)
      then (json_error 404 "Friend request not found", friends)
      else (Json 200 {[ "success" := JBool true ]}, sql_delete p friends)
  | _, _ => (json_error 400 "Missing fromId or declinerId", friends)
  end.

(** [POST /friend/remove], the legacy route. *)
Definition post_friend_remove (friends : list FriendRow) (body : Body)
  : Response * list FriendRow :=
  match present (body !! "fromId"), present (body !! "toId") with
  | Some fromId, Some toId =>
      let p r := edge (Some fromId) (Some toId) r && has_status "accepted" r in
      if bool_decide (changes p friends = 0%nat)
      then (json_error 404 "Friend relationship not found", friends)
      else (Json 200 {[ "success" := JBool true ]}, sql_delete p friends)
  | _, _ => (json_error 400 "Missing fromId or toId", friends)
  end.

(** [DELETE /2/users/:userId/friends/:friendId], the alias mounted under
    /friends. *)
Definition delete_2_user_friends (users : list UserRow) (friends : list FriendRow)
    (userId friendId : string) : Response * list FriendRow :=
  match getUserByIdParam users userId with
  | None => (json_error 404 "User not found", friends)
  | Some user =>
      match getUserByIdParam users friendId with
      | None => (json_error 404 "Friend not found", friends)
      | Some friend =>
          (NoContent,
           sql_delete
             (λ r, edge (MayhemId user) (MayhemId friend) r
                   || edge (MayhemId friend) (MayhemId user) r)
             friends)
      end
  end.

End handlers.
End Friends.

(** ** The state the land, event and currency handlers share *)

Record World `{Platform} := {
  users : list UserRow;
  friends : list FriendRow;
  files : gmap string Bytes;
  sessions : Presence.SessionManager
}.

Section world.
Context `{Platform}.

Definition with_users (w : World) (u : list UserRow) : World :=
  {| users := u; friends := friends w; files := files w; sessions := sessions w |}.

Definition with_files (w : World) (f : gmap string Bytes) : World :=
  {| users := users w; friends := friends w; files := f; sessions := sessions w |}.

Definition with_presence (w : World) (sm : Presence.SessionManager) : World :=
  {| users := users w; friends := friends w; files := files w; sessions := sm |}.

Definition set_WholeLandToken (v : option string) (u : UserRow) : UserRow :=
  {| MayhemId := MayhemId u; UserId := UserId u; UserName := UserName u;
     UserAccessToken := UserAccessToken u; WholeLandToken := v;
     LandSavePath := LandSavePath u; CurrencySavePath := CurrencySavePath u;
     LastPlayedTime := LastPlayedTime u |}.

Definition set_LandSavePath (v : option string) (u : UserRow) : UserRow :=
  {| MayhemId := MayhemId u; UserId := UserId u; UserName := UserName u;
     UserAccessToken := UserAccessToken u; WholeLandToken := WholeLandToken u;
     LandSavePath := v; CurrencySavePath := CurrencySavePath u;
     LastPlayedTime := LastPlayedTime u |}.

Definition set_CurrencySavePath (v : option string) (u : UserRow) : UserRow :=
  {| MayhemId := MayhemId u; UserId := UserId u; UserName := UserName u;
     UserAccessToken := UserAccessToken u; WholeLandToken := WholeLandToken u;
     LandSavePath := LandSavePath u; CurrencySavePath := v;
     LastPlayedTime := LastPlayedTime u |}.

Definition set_LastPlayedTime (v : option Z) (u : UserRow) : UserRow :=
  {| MayhemId := MayhemId u; UserId := UserId u; UserName := UserName u;
     UserAccessToken := UserAccessToken u; WholeLandToken := WholeLandToken u;
     LandSavePath := LandSavePath u; CurrencySavePath := CurrencySavePath u;
     LastPlayedTime := v |}.

(** Columns that a [SELECT] list leaves out read as [undefined]. *)
Definition without_UserId (u : UserRow) : UserRow :=
  {| MayhemId := MayhemId u; UserId := None; UserName := UserName u;
     UserAccessToken := UserAccessToken u; WholeLandToken := WholeLandToken u;
     LandSavePath := LandSavePath u; CurrencySavePath := CurrencySavePath u;
     LastPlayedTime := LastPlayedTime u |}.

(** [UPDATE UserData SET column = v WHERE MayhemId = ?] *)
Definition update_user (set : UserRow → UserRow) (id : option string)
    (t : list UserRow) : list UserRow :=
  map (λ u, if sql_eq (MayhemId u) id then set u else u) t.

(** [`${config.dataDirectory}/${id}/${id}.ext`] *)
Definition player_file (id ext : string) : string :=
  dataDirectory +:+ "/" +:+ id +:+ "/" +:+ id +:+ ext.

(** [a === b] between a string and a column value *)
Definition strict_eq (a : string) (b : option string) : bool :=
  bool_decide (Some a = b).

End world.

(** ** The event mailbox: event.controller.js *)

Module Events.
Section handlers.
Context `{Platform}.

Definition eventsFilePath (id : string) : string := player_file id ".events".

(** [EventsMessage.encode(EventsMessage.create({ event: [] })).finish()] *)
Definition empty_events : Bytes := encodeEvents [].

(** [GET /bg_gameserver_plugin/event/:friendId/protoland/]: the pending
    events of an owner.  The file is decoded to check it and its raw
    bytes are sent; nothing is written. *)
Definition get_event_protoland (w : World) (friendIdParam : string)
  : Response * World :=
  match files w !! eventsFilePath friendIdParam with
  | Some eventsData =>
      match decodeEvents eventsData with
      | Some _ => (Protobuf eventsData, w)
      | None => (Protobuf empty_events, w)
      end
  | None => (Protobuf empty_events, w)
  end.

(** The envelope as it is stored: id, sender, target and display name
    are set on the decoded message. *)
Definition stamp (uuid toPlayerIdParam : string) (eventMessage : EventMessage)
  : EventMessage :=
  let actualOwnerId :=
    if truthy_str (toPlayerId eventMessage) then toPlayerId eventMessage
    else toPlayerIdParam in
  let visitorId :=
    if truthy_str (fromPlayerId eventMessage) then fromPlayerId eventMessage
    else toPlayerIdParam in
  let visitorName :=
    match eventData eventMessage with
    | Some d => if truthy_str (displayName d) then displayName d else "Visitor"
    | None => "Visitor"
    end in
  {| event_id := uuid;
     fromPlayerId := visitorId;
     toPlayerId := actualOwnerId;
     eventData :=
       Some {| displayName := visitorName;
               displayNameLen := js_length visitorName;
               eventData_fields :=
                 match eventData eventMessage with
                 | Some d => eventData_fields d
                 | None => []
                 end |};
     event_fields := event_fields eventMessage |}.

(** The queue read back before an append: a file that is missing or
    does not decode starts a fresh queue. *)
Definition load_events (w : World) (path : string) : list EventMessage :=
  match files w !! path with
  | Some data =>
      match decodeEvents data with
      | Some l => l
      | None => []
      end
  | None => []
  end.

(** [POST /bg_gameserver_plugin/event/:toPlayerId/protoland/] *)
Definition post_event_protoland (w : World) (uuid toPlayerIdParam : string)
    (h : Headers) (body : Bytes) : Response * World :=
  match present (reqToken2 h) with
  | None => (XmlError 400 "MISSING_VALUE" "nucleus_token", w)
  | Some _ =>
      match decodeEvent body with
      | None => (LandUpdateResponse, w)
      | Some decoded =>
          let eventMessage := stamp uuid toPlayerIdParam decoded in
          let eventsFilePath := eventsFilePath (toPlayerId eventMessage) in
          let event := (load_events w eventsFilePath ++ [eventMessage])%list in
          (LandUpdateResponse,
           with_files w (<[eventsFilePath:=encodeEvents event]> (files w)))
      end
  end.

(** A run of POSTs to the mailbox URL of one owner: for each, the
    generated id, the headers and the body. *)
Definition post_events (w : World) (toPlayerIdParam : string)
    (posts : list (string * Headers * Bytes)) : World :=
  fold_left
    (λ w '(uuid, h, body), (post_event_protoland w uuid toPlayerIdParam h body).2)
    posts w.

(** A post is taken into the queue of [owner] when it carries a token
    and its body decodes to an event that names [owner] or nobody. *)
Definition queued (owner : string) (post : string * Headers * Bytes)
    (e : EventMessage) : Prop :=
  present (reqToken2 post.1.2) ≠ None
  ∧ ∃ d, decodeEvent post.2 = Some d
         ∧ e = stamp post.1.1 owner d ∧ toPlayerId e = owner.

(** [clearEventsFile(mayhemsId)] *)
Definition clearEventsFile (w : World) (mayhemsId : string) : World :=
  with_files w (delete (eventsFilePath mayhemsId) (files w)).

End handlers.
End Events.

(** ** The land document store: land.controller.js *)

Module Land.
Section handlers.
Context `{Platform}.

(** [Array.from(new Set(ids))]: first occurrences, in order. *)
Fixpoint unique (ids : list string) : list string :=
  match ids with
  | [] => []
  | x :: rest => x :: List.filter (λ y, negb (bool_decide (y = x))) (unique rest)
  end.

(** The visitor list a visiting friend is shown, from the owner's
    events file; an unreadable file gives no visitor. *)
Definition visitors (w : World) (landOwnerMayhemId : string) : list FriendListData :=
  let ids :=
    match files w !! Events.eventsFilePath landOwnerMayhemId with
    | Some eventsData =>
        match decodeEvents eventsData with
        | Some event => unique (map fromPlayerId event)
        | None => []
        end
    | None => []
    end in
  map (λ visitorId,
         {| header_id := 0; friendID := visitorId; hasBeenVisited := true;
            hideInMap := false; isOrigin := false |})
      ids.

(** [POST /bg_gameserver_plugin/protoWholeLandToken/:mayhemId]: issue a
    new save token. *)
Definition post_protoWholeLandToken (w : World) (nowMs : Z) (rnd uuid : string)
    (hostname mayhemId : string) (h : Headers) : Response * World :=
  match present (reqToken2 h) with
  | None => (XmlError 400 "MISSING_VALUE" "nucleus_token", w)
  | Some reqToken =>
      match userByMayhemId (users w) mayhemId with
      | None => (XmlError 404 "NOT_FOUND" "mayhemId", w)
      | Some userData =>
          if negb (strict_eq reqToken (UserAccessToken userData))
          then (XmlError 400 "BAD_REQUEST" "Invalid AccessToken for specified MayhemId", w)
          else
            let w1 :=
              if truthy_str mayhemId && truthy_onum (UserId userData) then
                let sm :=
                  (Presence.trackSession (sessions w) nowMs rnd
                     (String_of (UserId userData)) mayhemId hostname
                     (match UserName userData with
                      | Some name => <["username":=JStr name]>
                      | None => id
                      end
                        (<["timestamp":=JNum nowMs]>
                           {[ "action" := JStr "TokenRequest" ]}))).2 in
                with_users (with_presence w sm)
                  (update_user (set_LastPlayedTime (Some nowMs)) (Some mayhemId) (users w))
              else w in
            let newWholeLandToken := uuid in
            (Protobuf (encodeTokenResponse newWholeLandToken "0"),
             with_users w1
               (update_user (set_WholeLandToken (Some newWholeLandToken))
                  (Some mayhemId) (users w1)))
      end
  end.

(** USER_BY_TOKEN, then
    [requestingUser.MayhemId ? requestingUser.MayhemId.toString() : null] *)
Definition requestingUserMayhemId (w : World) (reqToken : string) : option string :=
  match userByToken (users w) reqToken with
  | Some requestingUser => present (MayhemId requestingUser)
  | None => None
  end.

(** QUERY: [SELECT UserAccessToken, WholeLandToken, LandSavePath, MayhemId
    FROM UserData WHERE MayhemId = ? OR UserId = ?].  [UserId] is not in
    the select list, so [userData.UserId] is [undefined]. *)
Definition landQuery (w : World) (landId : string) : option UserRow :=
  option_map without_UserId
    (List.find
       (λ u, sql_eq (MayhemId u) (Some landId)
             || match UserId u with
                | Some n => int_eq_text n landId
                | None => false
                end)
       (users w)).

(** [userData.MayhemId ? userData.MayhemId.toString() : landId] *)
Definition landOwnerMayhemId (userData : UserRow) (landId : string) : string :=
  match present (MayhemId userData) with
  | Some m => m
  | None => landId
  end.

(** [reqToken === userData.UserAccessToken] *)
Definition isOwnLand (reqToken : string) (userData : UserRow) : bool :=
  strict_eq reqToken (UserAccessToken userData).

(** [isFriend]: false unless the reader is not the owner, is known by
    its token and FRIEND_CHECK finds a row. *)
Definition isFriend (w : World) (reqToken : string) (userData : UserRow)
    (landId : string) : bool :=
  match requestingUserMayhemId w reqToken with
  | Some requester =>
      negb (isOwnLand reqToken userData)
      && isAccepted (friends w) requester (landOwnerMayhemId userData landId)
  | None => false
  end.



Definition LAND_NOT_FOUND : Response :=
  XmlError 404 "NO_SUCH_RESOURCE" "LAND_NOT_FOUND".


(** [LandMessage.create({ id: landId })] *)
Definition emptyLand (landId : string) : LandMessage :=
  {| land_id := landId; friendListData := []; land_fields := [] |}.

(** [GET /bg_gameserver_plugin/protoland/:landId]: read a land. *)
Definition get_protoland (w : World) (nowMs : Z) (rnd hostname landId : string)
    (h : Headers) : Response * World :=
  match present (reqToken2 h) with
  | None => (XmlError 400 "MISSING_VALUE" "nucleus_token", w)
  | Some reqToken =>
      (* Update session activity - player is actively playing *)
      let w1 :=
        match userByToken (users w) reqToken, requestingUserMayhemId w reqToken with
        | Some requestingUser, Some _ =>
            if truthy_onum (UserId requestingUser)
            then with_presence w
                   (Presence.updateActivity (sessions w) nowMs
                      (String_of (UserId requestingUser))).2
            else w
        | _, _ => w
        end in
      match landQuery w1 landId with
      | None => (Protobuf (encodeLand (emptyLand landId)), w1)
      | Some userData =>
          (* Track player session if they are accessing their own land *)
          let w2 :=
            if isOwnLand reqToken userData && truthy_ostr (MayhemId userData)
               && truthy_onum (UserId userData) then
              let sm :=
                (Presence.trackSession (sessions w1) nowMs rnd
                   (String_of (UserId userData))
                   (landOwnerMayhemId userData landId) hostname
                   (<["timestamp":=JNum nowMs]> {[ "action" := JStr "GetLand" ]})).2 in
              with_users (with_presence w1 sm)
                (update_user (set_LastPlayedTime (Some nowMs))
                   (MayhemId userData) (users w1))
            else w1 in
          (* the reader was resolved on entry and nothing here writes Friends *)
          if negb (isOwnLand reqToken userData)
             && negb (isFriend w reqToken userData landId)
          then (XmlError 400 "BAD_REQUEST" "Invalid AcessToken for specified MayhemId", w2)
          else
            match present (LandSavePath userData) with
            | None => (LAND_NOT_FOUND, w2)
            | Some savePath =>
                match files w2 !! savePath with
                | None => (LAND_NOT_FOUND, w2)
                | Some serializedSaveData =>
                    if bool_decide (byteLength serializedSaveData = 0%nat)
                    then (LAND_NOT_FOUND, w2)
                    else
                      match decodeLand serializedSaveData with
                      | None => (Plain 500 "Internal error", w2)
                      | Some decodedMessage =>
                          (* a visiting friend is shown the visitors *)
                          let friendList :=
                            if negb (isOwnLand reqToken userData)
                               && isFriend w reqToken userData landId
                            then visitors w2 (landOwnerMayhemId userData landId)
                            else friendListData decodedMessage in
                          (Protobuf
                             (encodeLand
                                {| land_id := landId;
                                   friendListData := friendList;
                                   land_fields := land_fields decodedMessage |}),
                           w2)
                      end
                end
            end
      end
  end.

(** [PUT /bg_gameserver_plugin/protoland/:landId]: save a land.  The
    handler reads the [land-update-token] header into a variable that
    nothing uses.  [fs_ok] says whether [mkdirSync] and [writeFileSync]
    return.  They throw when the directory cannot be made or the file
    cannot be opened, and when [req.body] is not a Buffer (the body of a
    request that is not of type application/x-protobuf is left
    unparsed); nothing has been written then, the handler ends in
    [next(error)], and the save path it registered before stays
    registered.  An error in the middle of a write is not modelled. *)
Definition put_protoland_fs (fs_ok : bool) (w : World) (landId : string)
    (h : Headers) (body : Bytes) : Response * World :=
  let wholeLandToken := h !! "land-update-token" in
  match present (reqToken2 h) with
  | None => (XmlError 400 "MISSING_VALUE" "nucleus_token", w)
  | Some reqToken =>
      match userByMayhemId (users w) landId with
      | None => (XmlError 404 "NOT_FOUND" "mayhemId", w)
      | Some userData =>
          if negb (strict_eq reqToken (UserAccessToken userData))
          then (XmlError 400 "BAD_REQUEST" "Invalid AccessToken for specified MayhemId", w)
          else
            let '(savePath, w1) :=
              match present (LandSavePath userData) with
              | Some savePath => (savePath, w)
              | None =>
                  let savePath := player_file landId ".land" in
                  (savePath,
                   with_users w
                     (update_user (set_LandSavePath (Some savePath))
                        (Some landId) (users w)))
              end in
            if fs_ok then
              let w2 := with_files w1 (<[savePath:=body]> (files w1)) in
              (LandUpdateResponse, Events.clearEventsFile w2 landId)
            else (Next, w1)
      end
  end.

(** The handler on a run in which the calls into [fs] return. *)
Definition put_protoland : World → string → Headers → Bytes → Response * World :=
  put_protoland_fs true.

(** [POST /bg_gameserver_plugin/protoland/:landId] has the body of the
    [PUT] handler. *)
Definition post_protoland := put_protoland.

(** [POST /bg_gameserver_plugin/deleteToken/:mayhemId/protoWholeLandToken/]:
    the body is decoded before anything else. *)
Definition post_deleteToken `{!TokenCodec} (w : World) (mayhemId : string)
    (h : Headers) (body : Bytes) : Response * World :=
  match decodeDeleteTokenRequest body with
  | None => (Next, w)
  | Some token =>
      match present (reqToken2 h) with
      | None => (XmlError 400 "MISSING_VALUE" "nucleus_token", w)
      | Some reqToken =>
          match userByMayhemId (users w) mayhemId with
          | None => (XmlError 404 "NOT_FOUND" "mayhemId", w)
          | Some userData =>
              if negb (strict_eq reqToken (UserAccessToken userData))
              then (XmlError 400 "BAD_REQUEST"
                      "Invalid AccessToken for specified MayhemId", w)
              else if negb (strict_eq token (WholeLandToken userData))
              then (Protobuf (encodeDeleteTokenResponse "0"), w)
              else
                (Protobuf (encodeDeleteTokenResponse "1"),
                 with_users w
                   (update_user (set_WholeLandToken (Some ""))
                      (Some mayhemId) (users w)))
          end
      end
  end.

End handlers.
End Land.

(** ** The currency ledger: currency.controller.js *)

Module Currency.
Section handlers.
Context `{Platform}.

(** [ensureCurrencyFile(landId, savePath, startingAmount)] *)
Definition ensureCurrencyFile (w : World) (nowMs : Z) (landId savePath : string)
    (startingAmount : Z) : World :=
  let fresh :=
    encodeCurrency
      {| currency_id := landId;
         vcTotalPurchased := 0;
         vcTotalAwarded := startingAmount;
         vcBalance := startingAmount;
         currency_createdAt := 1715911362;
         currency_updatedAt := nowMs |} in
  match files w !! savePath with
  | Some st =>
      if bool_decide (0 < byteLength st)%nat then w
      else with_files w (<[savePath:=fresh]> (files w))
  | None => with_files w (<[savePath:=fresh]> (files w))
  end.

(** [let donutDelta = 0; ... .map(cd => { donutDelta += cd.amount; ... })] *)
Definition donutDelta (deltas : list CurrencyDelta) : Z :=
  fold_left (λ acc cd, acc + amount cd) deltas 0.

(** [CurrencyDelta.create({ id: cd.id })] for each delta of the batch *)
Definition processed (deltas : list CurrencyDelta) : list CurrencyDelta :=
  map (λ cd, {| delta_id := delta_id cd; amount := 0; delta_fields := [] |}) deltas.

(** The record written back for a batch. *)
Definition applyDelta (nowMs : Z) (decodedCurrencyData : CurrencyData)
    (deltas : list CurrencyDelta) : CurrencyData :=
  let newTotal := vcTotalAwarded decodedCurrencyData + donutDelta deltas in
  {| currency_id := currency_id decodedCurrencyData;
     vcTotalPurchased := vcTotalPurchased decodedCurrencyData;
     vcTotalAwarded := newTotal;
     vcBalance := newTotal;
     currency_createdAt := 1715911362;
     currency_updatedAt := nowMs |}.

(** [POST /bg_gameserver_plugin/extraLandUpdate/:landId/protoland/].
    The file is read and written through [userData.CurrencySavePath],
    the column as it was selected, not through [savePath]. *)
Definition post_extraLandUpdate (w : World) (nowMs : Z) (landId : string)
    (h : Headers) (body : Bytes) : Response * World :=
  let wholeLandToken := h !! "land-update-token" in
  match present (reqToken2 h) with
  | None => (XmlError 400 "MISSING_VALUE" "nucleus_token", w)
  | Some reqToken =>
      match userByMayhemId (users w) landId with
      | None => (XmlError 404 "NOT_FOUND" "mayhemId", w)
      | Some userData =>
          if negb (strict_eq reqToken (UserAccessToken userData))
          then (XmlError 400 "BAD_REQUEST" "Invalid AcessToken for specified MayhemId", w)
          else
            (* a WholeLandToken mismatch is logged and the handler proceeds *)
            let '(savePath, w1) :=
              match present (CurrencySavePath userData) with
              | Some savePath => (savePath, w)
              | None =>
                  let savePath := player_file landId ".currency" in
                  (savePath,
                   with_users w
                     (update_user (set_CurrencySavePath (Some savePath))
                        (Some landId) (users w)))
              end in
            let w2 := ensureCurrencyFile w1 nowMs landId savePath startingDonuts in
            match decodeExtraLand body with
            | None => (Next, w2)
            | Some decodedMessage =>
                match present (CurrencySavePath userData) with
                | None => (Next, w2)
                | Some path =>
                    match files w2 !! path with
                    | None => (Next, w2)
                    | Some currencyFile =>
                        match decodeCurrency currencyFile with
                        | None => (Next, w2)
                        | Some decodedCurrencyData =>
                            let newContent :=
                              applyDelta nowMs decodedCurrencyData
                                (currencyDelta decodedMessage) in
                            let w3 :=
                              with_files w2
                                (<[path:=encodeCurrency newContent]> (files w2)) in
                            let w4 :=
                              if truthy_onum (UserId userData)
                              then with_presence w3
                                     (Presence.updateActivity (sessions w3) nowMs
                                        (String_of (UserId userData))).2
                              else w3 in
                            (Protobuf
                               (encodeExtraLandResponse
                                  {| processedCurrencyDelta :=
                                       processed (currencyDelta decodedMessage);
                                     processedEvent := [];
                                     receivedEvent := [];
                                     communityGoal := [] |}),
                             w4)
                        end
                    end
                end
            end
      end
  end.

(** The record that [ensureCurrencyFile] writes when it is given the
    configured starting amount. *)
Definition opening (landId : string) (nowMs : Z) : CurrencyData :=
  {| currency_id := landId; vcTotalPurchased := 0;
     vcTotalAwarded := startingDonuts; vcBalance := startingDonuts;
     currency_createdAt := 1715911362; currency_updatedAt := nowMs |}.

End handlers.
End Currency.

(** ** A reference platform

    An instance of [Platform] on which the handlers can be run: a file
    holds either raw bytes or a message, and decoding a message of the
    wrong type throws. *)

Module Reference.

Inductive Blob :=
  | BRaw (raw : list Byte.byte)
  | BLand (m : LandMessage)
  | BEvent (e : EventMessage)
  | BEvents (l : list EventMessage)
  | BCurrency (c : CurrencyData)
  | BExtraLand (m : ExtraLandMessage)
  | BExtraLandResponse (r : ExtraLandResponse)
  | BToken (token conflict : string).

#[export] Instance platform : Platform := {|
  Bytes := Blob;
  byteLength b := match b with BRaw raw => length raw | _ => 1%nat end;
  decodeLand b := match b with BLand m => Some m | _ => None end;
  encodeLand := BLand;
  decodeEvent b := match b with BEvent e => Some e | _ => None end;
  decodeEvents b := match b with BEvents l => Some l | _ => None end;
  encodeEvents := BEvents;
  decodeCurrency b := match b with BCurrency c => Some c | _ => None end;
  encodeCurrency := BCurrency;
  decodeExtraLand b := match b with BExtraLand m => Some m | _ => None end;
  encodeExtraLandResponse := BExtraLandResponse;
  encodeTokenResponse := BToken;
  int_eq_text n s := bool_decide (pretty n = s);
  js_length s := Z.of_nat (String.length s);
  dataDirectory := "data";
  startingDonuts := 0
|}.

(** The examples store numbers only under a time stamp, so the outcome
    chosen here for strings is never consulted. *)
#[export] Instance string_coercion : StringCoercion := λ _ _ _, false.

#[export] Instance round_trip : EventsRoundTrip.
Proof. intros l. reflexivity. Qed.

#[export] Instance token_codec : TokenCodec := {|
  decodeDeleteTokenRequest b :=
    match b with BToken token _ => Some token | _ => None end;
  encodeDeleteTokenResponse result := BToken result ""
|}.

#[export] Instance currency_round_trip_ref : CurrencyRoundTrip.
Proof. intros c. reflexivity. Qed.

Definition user (mayhemId : string) (userId : Z) (token : string)
    (wholeLandToken landSavePath currencySavePath : option string) : UserRow :=
  {| MayhemId := Some mayhemId; UserId := Some userId; UserName := Some mayhemId;
     UserAccessToken := Some token; WholeLandToken := wholeLandToken;
     LandSavePath := landSavePath; CurrencySavePath := currencySavePath;
     LastPlayedTime := None |}.

Definition row (owner friend status : string) : FriendRow :=
  {| ownerMayhemId := Some owner; friendMayhemId := Some friend;
     status := status; createdAt := 0 |}.

Definition bearer (token : string) : Headers := {[ "nucleus_token" := token ]}.

Definition event (sender target : string) : EventMessage :=
  {| event_id := ""; fromPlayerId := sender; toPlayerId := target;
     eventData := None; event_fields := [] |}.

(** Two accounts, 42 and 43. *)
Definition alice : UserRow := user "42" 1042 "token42" (Some "T1") None None.
Definition bob : UserRow := user "43" 1043 "token43" None None None.

Definition carl : UserRow :=
  user "44" 1044 "token44" None (Some "data/44/44.land") (Some "data/44/44.currency").

Definition purse : CurrencyData :=
  {| currency_id := "44"; vcTotalPurchased := 5; vcTotalAwarded := 10;
     vcBalance := 15; currency_createdAt := 1715911362; currency_updatedAt := 0 |}.

Definition batch : ExtraLandMessage :=
  {| currencyDelta := [ {| delta_id := 1; amount := 3; delta_fields := [] |} ];
     extra_fields := [] |}.

Definition town : LandMessage :=
  {| land_id := "44"; friendListData := []; land_fields := [] |}.

(** Account 44 with a saved land and a currency file. *)
Definition world44 : World :=
  {| users := [carl; bob]; friends := [row "43" "44" "accepted"];
     files := <["data/44/44.land":=BLand town]>
                {[ "data/44/44.currency" := BCurrency purse ]};
     sessions := Presence.constructor |}.




Definition erin : UserRow :=
  user "46" 1046 "token46" None (Some "data/46/46.land") (Some "data/46/46.currency").

(** Account 46 as provisioning leaves it, and account 42 with an events
    file that does not decode. *)
Definition world46 : World :=
  {| users := [erin]; friends := [];
     files := {[ "data/46/46.currency" := BRaw [] ]};
     sessions := Presence.constructor |}.

Definition world_corrupt : World :=
  {| users := [alice; bob]; friends := [];
     files := {[ "data/42/42.events" := BRaw [] ]};
     sessions := Presence.constructor |}.



Definition world0 : World :=
  {| users := [alice; bob]; friends := []; files := ∅;
     sessions := Presence.constructor |}.

End Reference.

(** * Properties *)

(** ** Presence *)

Section presence_facts.
Import Presence.
Context `{StringCoercion}.

Lemma session_literal_lookup now u m h c sid k :
  session_literal now u m h c sid !! k =
    if decide (k = "sessionId") then sid
    else if decide (k = "connectedAt") then c
    else if decide (k = "lastActive") then Some (JNum now)
    else if decide (k = "hostname") then Some (JStr h)
    else if decide (k = "mayhemId") then Some (JStr m)
    else if decide (k = "userId") then Some (JStr u)
    else None.
Proof.
  unfold session_literal.
  destruct sid, c; repeat case_decide; subst; simplify_map_eq; done.
Qed.

Lemma isOnline_fresh sm now u :
  isOnline sm now u = true ↔
  ∃ s, activeSessions sm !! u = Some s ∧ _isSessionStale sm now s = false.
Proof.
  unfold isOnline, getSession.
  destruct (activeSessions sm !! u) as [s|] eqn:E; simpl.
  - destruct (_isSessionStale sm now s) eqn:St; simpl; split.
    + discriminate.
    + intros (s' & [= <-] & ?). congruence.
    + intros _. eauto.
    + done.
  - split; [discriminate | intros (s & ? & _); discriminate].
Qed.

Lemma stale_numeric sm now s t :
  s !! "lastActive" = Some (JNum t) →
  _isSessionStale sm now s = true ↔ sessionTimeout sm < now - t.
Proof.
  intros E. unfold _isSessionStale. rewrite E. simpl.
  apply Z.ltb_lt.
Qed.

Lemma trackSession_lookup sm now rnd u m h ad :
  truthy_str u = true → truthy_str m = true →
  trackSession sm now rnd u m h ad =
    (true,
     with_sessions sm
       (<[u := ad ∪ session_literal now u m h
                  (match activeSessions sm !! u with
                   | Some s => s !! "connectedAt"
                   | None => Some (JNum now)
                   end)
                  (match activeSessions sm !! u with
                   | Some s => s !! "sessionId"
                   | None => Some (_generateSessionId now rnd)
                   end)]> (activeSessions sm))).
Proof. intros Hu Hm. unfold trackSession. rewrite Hu, Hm. reflexivity. Qed.

(** An account whose session carries a number under [lastActive] is
    online exactly while [now - lastActive <= sessionTimeout]. *)
Lemma isOnline_numeric sm now u s t :
  activeSessions sm !! u = Some s →
  s !! "lastActive" = Some (JNum t) →
  isOnline sm now u = true ↔ now - t ≤ sessionTimeout sm.
Proof.
  intros Hs Ht. rewrite isOnline_fresh. split.
  - intros (s' & Hs' & Hf). rewrite Hs in Hs'. injection Hs' as <-.
    destruct (Z.le_gt_cases (now - t) (sessionTimeout sm)) as [Hle|Hgt]; [done|].
    apply (stale_numeric sm now s t Ht) in Hgt. congruence.
  - intros Hle. exists s. split; [done|].
    destruct (_isSessionStale sm now s) eqn:St; [|done].
    apply (stale_numeric sm now s t Ht) in St. lia.
Qed.

Lemma updateActivity_lookup sm t1 u s :
  activeSessions sm !! u = Some s →
  (updateActivity sm t1 u).2 =
    with_sessions sm (<[u:=<["lastActive":=JNum t1]> s]> (activeSessions sm)).
Proof. intros E. unfold updateActivity. by rewrite E. Qed.

(** The presence bound in general.  After [trackSession] at time [t0]
    whose metadata does not name [lastActive], the account is online at
    [now] exactly when [now - t0] does not exceed the timeout, and a
    later [updateActivity] at [t1] moves the bound to [t1]. *)
Lemma presence_timeout sm t0 rnd u m h (ad : Session) now :
  truthy_str u = true → truthy_str m = true →
  ad !! "lastActive" = None →
  let sm1 := (trackSession sm t0 rnd u m h ad).2 in
  (isOnline sm1 now u = true ↔ now - t0 ≤ sessionTimeout sm)
  ∧ (∀ t1, isOnline (updateActivity sm1 t1 u).2 now u = true
           ↔ now - t1 ≤ sessionTimeout sm).
Proof.
  intros Hu Hm Hl sm1. subst sm1.
  rewrite trackSession_lookup by done. simpl.
  set (s1 := ad ∪ _).
  assert (Hs1 : s1 !! "lastActive" = Some (JNum t0)).
  { subst s1. rewrite lookup_union_r by done.
    by rewrite session_literal_lookup. }
  split.
  - refine (isOnline_numeric (with_sessions sm _) now u s1 t0 _ _);
      [apply lookup_insert_eq | done].
  - intros t1.
    erewrite updateActivity_lookup by (simpl; apply lookup_insert_eq).
    refine (isOnline_numeric (with_sessions _ _) now u
              (<["lastActive":=JNum t1]> s1) t1 _ _);
      apply lookup_insert_eq.
Qed.

End presence_facts.

Section presence_claims.
Import Presence.
Context `{StringCoercion}.

(** C6.  The constructor sets the timeout with the comment "5 minutes of
    inactivity = offline", and [_isSessionStale] tests
    [Date.now() - lastActive > sessionTimeout].  A session tracked at
    time 0 and left alone is therefore still online at 300000, after
    exactly five minutes of inactivity, where the claimed bound
    [now - lastActive < timeout] and the comment have it offline; it is
    online at 299999 and offline at 300001, as both say. *)
Theorem online_at_exact_timeout :
  let sm := (trackSession constructor 0 "r" "1042" "42" "host" ∅).2 in
  sessionTimeout sm = 5 * 60 * 1000
  ∧ (∃ s, activeSessions sm !! "1042" = Some s
          ∧ s !! "lastActive" = Some (JNum 0))
  ∧ isOnline sm 299999 "1042" = true
  ∧ isOnline sm 300000 "1042" = true
  ∧ isOnline sm 300001 "1042" = false.
Proof.
  split; [reflexivity|]. split; [eexists; split; reflexivity|].
  repeat split; reflexivity.
Qed.

(** C9, as amended.  A call of [trackSession] with a non-empty user and
    land id succeeds and leaves every other account's session and the
    timeout alone.  The session it stores is a new object: the supplied
    metadata laid over six fixed properties, which are the three
    supplied identifiers, [lastActive] set to the time of the call, and
    [connectedAt] and [sessionId], which are those of the session that
    existed before the call and are the time of the call and a newly
    generated id only when none existed.  So unless the metadata itself
    names them, a repeated call keeps [connectedAt] and [sessionId],
    moves [lastActive] and replaces [userId], [mayhemId] and [hostname]
    by the supplied ones; every other property of the new session is
    what the metadata holds, so a property of the old session that is
    not supplied again is gone. *)
Theorem trackSession_preserves_origin sm now rnd u m h (ad : Session) :
  truthy_str u = true → truthy_str m = true →
  let old := activeSessions sm !! u in
  let connectedAt :=
    match old with
    | Some s => s !! "connectedAt"
    | None => Some (JNum now)
    end in
  let sessionId :=
    match old with
    | Some s => s !! "sessionId"
    | None => Some (_generateSessionId now rnd)
    end in
  let r := trackSession sm now rnd u m h ad in
  r.1 = true
  ∧ sessionTimeout r.2 = sessionTimeout sm
  ∧ (∀ u', u' ≠ u → activeSessions r.2 !! u' = activeSessions sm !! u')
  ∧ ∃ s', activeSessions r.2 !! u = Some s'
      ∧ s' = ad ∪ session_literal now u m h connectedAt sessionId
      ∧ (∀ k v, ad !! k = Some v → s' !! k = Some v)
      ∧ (ad !! "lastActive" = None → s' !! "lastActive" = Some (JNum now))
      ∧ (ad !! "connectedAt" = None → s' !! "connectedAt" = connectedAt)
      ∧ (ad !! "sessionId" = None → s' !! "sessionId" = sessionId)
      ∧ (ad !! "userId" = None → s' !! "userId" = Some (JStr u))
      ∧ (ad !! "mayhemId" = None → s' !! "mayhemId" = Some (JStr m))
      ∧ (ad !! "hostname" = None → s' !! "hostname" = Some (JStr h))
      ∧ (∀ k, k ∉ ["userId"; "mayhemId"; "hostname"; "lastActive";
                    "connectedAt"; "sessionId"] →
              s' !! k = ad !! k).
Proof.
  intros Hu Hm old connectedAt sessionId r. subst r.
  rewrite trackSession_lookup by done. simpl.
  split; [done|]. split; [done|]. split.
  { intros u' Hne. by rewrite lookup_insert_ne. }
  eexists. split; [apply lookup_insert_eq|]. split; [done|].
  split; [|repeat split].
  - intros k v Hk. by apply lookup_union_Some_l.
  - intros Hl. by rewrite lookup_union_r, session_literal_lookup.
  - intros Hc. by rewrite lookup_union_r, session_literal_lookup.
  - intros Hs. by rewrite lookup_union_r, session_literal_lookup.
  - intros Hk. by rewrite lookup_union_r, session_literal_lookup.
  - intros Hk. by rewrite lookup_union_r, session_literal_lookup.
  - intros Hk. by rewrite lookup_union_r, session_literal_lookup.
  - intros k Hk.
    assert (Hlit : session_literal now u m h connectedAt sessionId !! k = None).
    { rewrite session_literal_lookup.
      repeat (case_decide; [subst k; exfalso; apply Hk; set_solver|]). done. }
    destruct (ad !! k) as [v|] eqn:E.
    + by apply lookup_union_Some_l.
    + by rewrite lookup_union_r.
Qed.

End presence_claims.

Section presence_examples.
Import Presence Reference.

Lemma trackSession_preserves_origin_witness :
  let ad : Session :=
    <["username":=JStr "homer"]>
      (<["timestamp":=JNum 7]> {[ "action" := JStr "TokenRequest" ]}) in
  let sm := (trackSession constructor 5 "r1" "1042" "42" "host" ad).2 in
  ∃ s', activeSessions (trackSession sm 7 "r2" "1042" "42" "host2" ad).2 !! "1042"
          = Some s'
        ∧ s' !! "lastActive" = Some (JNum 7)
        ∧ s' !! "connectedAt" = Some (JNum 5)
        ∧ s' !! "sessionId" = Some (_generateSessionId 5 "r1")
        ∧ s' !! "hostname" = Some (JStr "host2")
        ∧ s' !! "username" = Some (JStr "homer")
        ∧ s' !! "visitingFriendId" = None.
Proof.
  intros ad sm.
  destruct (trackSession_preserves_origin sm 7 "r2" "1042" "42" "host2" ad
              eq_refl eq_refl)
    as (_ & _ & _ & s' & Hs & _ & Had & Hl & Hc & Hi & _ & _ & Hh & Hfr).
  exists s'. split; [exact Hs|].
  split; [apply Hl; vm_compute; reflexivity|].
  split; [rewrite Hc by (vm_compute; reflexivity); vm_compute; reflexivity|].
  split; [rewrite Hi by (vm_compute; reflexivity); vm_compute; reflexivity|].
  split; [apply Hh; vm_compute; reflexivity|].
  split; [apply Had; vm_compute; reflexivity|].
  rewrite Hfr; [vm_compute; reflexivity|].
  intros Hin. repeat (apply elem_of_cons in Hin as [Hin|Hin]; [discriminate Hin|]).
  by apply elem_of_nil in Hin.
Defined.

(** C9 as stated fails in its frame: a repeated call does not leave the
    rest of the session alone.  A player tracked at 5 who starts a visit
    at 6 and is tracked again at 7 has lost [visitingFriendId], which the
    metadata of the second call does not name. *)
Lemma trackSession_drops_unsupplied :
  ¬ (∀ sm now rnd u m h (ad : Session) s s',
       activeSessions sm !! u = Some s →
       activeSessions (trackSession sm now rnd u m h ad).2 !! u = Some s' →
       ∀ k, k ≠ "lastActive" → ad !! k = None → s' !! k = s !! k).
Proof.
  intros Hall.
  pose (ad := (<["timestamp":=JNum 7]> {[ "action" := JStr "TokenRequest" ]})
              : Session).
  pose (sm := (setVisitingFriend
                 (trackSession constructor 5 "r1" "1042" "42" "host" ad).2
                 6 "1042" "43").2).
  pose (s := <["visitStartTime":=JNum 6]>
               (<["visitingFriendId":=JStr "43"]>
                  (ad ∪ session_literal 5 "1042" "42" "host" (Some (JNum 5))
                          (Some (_generateSessionId 5 "r1"))))).
  pose (s' := ad ∪ session_literal 7 "1042" "42" "host" (Some (JNum 5))
                     (Some (_generateSessionId 5 "r1"))).
  assert (E : s' !! "visitingFriendId" = s !! "visitingFriendId").
  { apply (Hall sm 7 "r2" "1042" "42" "host" ad s s');
      [vm_compute; reflexivity | vm_compute; reflexivity | discriminate
      | reflexivity]. }
  vm_compute in E. discriminate E.
Qed.

End presence_examples.

(** ** Friend graph *)

Section friend_facts.
Context `{Platform}.
Import Friends.

Lemma find_none_filter {A} (p : A → bool) (l : list A) :
  List.find p l = None → List.filter p l = [].
Proof.
  induction l as [|x l IH]; simpl; [done|].
  destruct (p x); [discriminate | exact IH].
Qed.

Lemma find_app_none {A} (p : A → bool) (l : list A) (x : A) :
  List.find p l = None → p x = true → List.find p (l ++ [x])%list = Some x.
Proof.
  induction l as [|y l IH]; simpl; intros Hn Hx.
  - by rewrite Hx.
  - destruct (p y); [discriminate | by apply IH].
Qed.

Lemma edge_refl a b st n :
  edge (Some a) (Some b)
    {| ownerMayhemId := Some a; friendMayhemId := Some b;
       status := st; createdAt := n |} = true.
Proof. unfold edge, sql_eq. simpl. by rewrite !bool_decide_eq_true_2. Qed.

Lemma edge_true a b r :
  edge (Some a) (Some b) r = true ↔
  ownerMayhemId r = Some a ∧ friendMayhemId r = Some b.
Proof.
  unfold edge, sql_eq.
  destruct (ownerMayhemId r) as [o|], (friendMayhemId r) as [f|]; simpl;
    rewrite ?andb_false_r, ?andb_true_iff, ?bool_decide_eq_true;
    split; try discriminate; try (intros [[=] ?]; fail); try (intros [? [=]]; fail).
  - by intros [-> ->].
  - by intros [[= ->] [= ->]].
Qed.

Lemma sql_delete_elem p t r :
  r ∈ sql_delete p t → r ∈ t ∧ p r = false.
Proof.
  unfold sql_delete. rewrite list_elem_of_In, filter_In, <- list_elem_of_In.
  intros [? Hn]. split; [done|]. by apply negb_true_iff.
Qed.

Lemma isAccepted_true t a b :
  isAccepted t a b = true ↔
  ∃ r, r ∈ t ∧ ownerMayhemId r = Some a ∧ friendMayhemId r = Some b
       ∧ status r = "accepted".
Proof.
  unfold isAccepted. rewrite existsb_exists. split.
  - intros (r & Hin & Hr). exists r. apply list_elem_of_In in Hin.
    unfold edge, sql_eq, has_status in Hr.
    destruct (ownerMayhemId r) as [o|], (friendMayhemId r) as [f|];
      simpl in Hr; try discriminate; try (by rewrite andb_false_r in Hr).
    apply andb_prop in Hr as [Hr Hs]. apply andb_prop in Hr as [Ho Hf].
    apply bool_decide_eq_true_1 in Ho, Hf, Hs. by subst.
  - intros (r & Hin & Ho & Hf & Hs). exists r. split.
    + by apply list_elem_of_In.
    + unfold edge, sql_eq, has_status. rewrite Ho, Hf, Hs.
      by rewrite !bool_decide_eq_true_2.
Qed.

Lemma isAccepted_false t a b :
  isAccepted t a b = false ↔
  ∀ r, r ∈ t → ownerMayhemId r = Some a → friendMayhemId r = Some b →
       status r ≠ "accepted".
Proof.
  rewrite <- not_true_iff_false, isAccepted_true. split.
  - intros Hn r Hin Ho Hf Hs. apply Hn. eauto.
  - intros Hall (r & Hin & Ho & Hf & Hs). by eapply Hall.
Qed.


(** Deleting through the identity proxy leaves neither direction
    accepted. *)
Lemma deleteFriend_clears users t h body tok owner friendId :
  present (reqToken4 h) = Some tok →
  userByToken users tok = Some owner →
  present (first_truthy body ["friendId"; "targetId"; "personaId"]) = Some friendId →
  let t' := (post_friends_deleteFriend users t h body).2 in
  isAccepted t' (ownerId owner) friendId = false
  ∧ isAccepted t' friendId (ownerId owner) = false.
Proof.
  intros Ht Ho Hf t'. subst t'. unfold post_friends_deleteFriend.
  rewrite Ht, Ho, Hf. simpl.
  split; apply isAccepted_false; intros r Hin Hro Hrf _;
    apply sql_delete_elem in Hin as [_ Hn];
    apply orb_false_elim in Hn as [Hn1 Hn2].
  - rewrite (proj2 (edge_true _ _ r)) in Hn1 by done. discriminate.
  - rewrite (proj2 (edge_true _ _ r)) in Hn2 by done. discriminate.
Qed.

End friend_facts.

Section friend_claims.
Context `{Platform}.
Import Friends.

(** [POST /invitations] looks for a row in the direction of the request
    only.  When one exists the answer carries the status of the first
    such row and the table is unchanged; when none exists one pending
    row is appended and the answer is pending.  Either way an immediate
    retry gives the same answer and changes nothing, so two requests in
    a row from a table without such a row answer pending twice and leave
    exactly one row for the ordered pair.  The legacy
    [POST /friend/invite] inserts in the same way but answers a repeated
    request with status 409 and the stored status. *)
Lemma request_same_direction_idempotent users t now1 now2 h body tok owner toId :
  present (reqToken4 h) = Some tok →
  userByToken users tok = Some owner →
  present (first_truthy body
             ["toId"; "friendMayhemId"; "targetId"; "personaId"; "recipientId"])
    = Some toId →
  let fromId := ownerId owner in
  let r1 := post_invitations users t now1 h body in
  let r2 := post_invitations users r1.2 now2 h body in
  r2 = r1
  ∧ match List.find (edge (Some fromId) (Some toId)) t with
    | Some existing => r1 = (json_status 200 (status existing), t)
    | None =>
        r1 = (json_status 200 "pending",
              sql_insert (Some fromId) (Some toId) "pending" (seconds now1) t)
        ∧ changes (edge (Some fromId) (Some toId)) r1.2 = 1%nat
    end
  ∧ ∀ fromIdL toIdL,
      present (body !! "fromId") = Some fromIdL →
      present (body !! "toId") = Some toIdL →
      match List.find (edge (Some fromIdL) (Some toIdL)) t with
      | Some existing =>
          post_friend_invite t now1 body =
            (Json 409 (<["status":=JStr (status existing)]>
                         {[ "error" := JStr "Friend request already exists" ]}), t)
      | None =>
          post_friend_invite t now1 body =
            (json_status 200 "pending",
             sql_insert (Some fromIdL) (Some toIdL) "pending" (seconds now1) t)
      end.
Proof.
  intros Htok Hown Hto fromId r1 r2. subst r1 r2 fromId.
  unfold post_invitations, post_friend_invite.
  rewrite Htok, Hown, Hto.
  split; [|split].
  - destruct (List.find (edge (Some (ownerId owner)) (Some toId)) t)
      as [existing|] eqn:E; simpl.
    + by rewrite E.
    + unfold sql_insert. erewrite find_app_none; [done|done|apply edge_refl].
  - destruct (List.find (edge (Some (ownerId owner)) (Some toId)) t)
      as [existing|] eqn:E; simpl; [done|].
    split; [done|].
    unfold changes, sql_insert. rewrite List.filter_app, (find_none_filter _ _ E).
    simpl. by rewrite edge_refl.
  - intros fromIdL toIdL -> ->.
    by destruct (List.find (edge (Some fromIdL) (Some toIdL)) t).
Qed.

End friend_claims.

Section friend_examples.
Import Reference Friends.

(** C4.  With a row from 43 to 42 in the table, a request from 42 to 43
    through [POST /invitations] does not find it: it answers pending and
    appends a row for the opposite direction, beside an accepted row as
    well as beside a pending one.  On the same tables the invitation
    route of invitations.controller.js, which looks in both directions,
    changes nothing. *)
Theorem invitation_misses_reverse_row :
  let request t :=
    post_invitations [alice; bob] t 5000 (bearer "token42") {[ "toId" := "43" ]} in
  let sibling t := post_invitations_outbound [alice; bob] t 5000 "42" "43" in
  let added :=
    {| ownerMayhemId := Some "42"; friendMayhemId := Some "43";
       status := "pending"; createdAt := 5 |} in
  request [row "43" "42" "accepted"]
  = (json_status 200 "pending", [row "43" "42" "accepted"; added])
  ∧ request [row "43" "42" "pending"]
    = (json_status 200 "pending", [row "43" "42" "pending"; added])
  ∧ sibling [row "43" "42" "accepted"] = (NoContent, [row "43" "42" "accepted"])
  ∧ sibling [row "43" "42" "pending"] = (NoContent, [row "43" "42" "pending"]).
Proof. vm_compute. repeat split. Qed.

(** C3.  A request from 42 to 43 leaves one pending row.  The accept
    route of the identity proxy, called by 43, only rewrites that row:
    42 -> 43 is accepted afterwards and 43 -> 42 is not.  On the same input the
    accept route of invitations.controller.js, which inserts the
    reciprocal row, leaves both directions accepted. *)
Theorem confirmInvitation_one_sided :
  let t0 := (post_invitations [alice; bob] [] 0 (bearer "token42")
               {[ "toId" := "43" ]}).2 in
  let t1 := (post_friends_confirmInvitation [alice; bob] t0 (bearer "token43")
               {[ "fromId" := "42" ]}).2 in
  let t2 := (post_invitations_inbound [alice; bob] t0 0 "43" "42").2 in
  t0 = [row "42" "43" "pending"]
  ∧ t1 = [row "42" "43" "accepted"]
  ∧ isAccepted t1 "42" "43" = true ∧ isAccepted t1 "43" "42" = false
  ∧ isAccepted t2 "42" "43" = true ∧ isAccepted t2 "43" "42" = true.
Proof. vm_compute. repeat split. Qed.

End friend_examples.

(** ** Land documents *)

Section land_facts.
Context `{Platform}.
Import Land.

(** The world in which the land is looked up differs from the initial
    one in the session table only. *)
Lemma get_protoland_unfold w nowMs rnd hostname landId h reqToken :
  present (reqToken2 h) = Some reqToken →
  ∃ w1, users w1 = users w ∧ friends w1 = friends w ∧ files w1 = files w
    ∧ get_protoland w nowMs rnd hostname landId h =
      match landQuery w landId with
      | None => (Protobuf (encodeLand (emptyLand landId)), w1)
      | Some userData =>
          if negb (isOwnLand reqToken userData)
             && negb (isFriend w reqToken userData landId)
          then (XmlError 400 "BAD_REQUEST" "Invalid AcessToken for specified MayhemId", w1)
          else
            match present (LandSavePath userData) with
            | None => (LAND_NOT_FOUND, w1)
            | Some savePath =>
                match files w !! savePath with
                | None => (LAND_NOT_FOUND, w1)
                | Some serializedSaveData =>
                    if bool_decide (byteLength serializedSaveData = 0%nat)
                    then (LAND_NOT_FOUND, w1)
                    else
                      match decodeLand serializedSaveData with
                      | None => (Plain 500 "Internal error", w1)
                      | Some decodedMessage =>
                          (Protobuf
                             (encodeLand
                                {| land_id := landId;
                                   friendListData :=
                                     if negb (isOwnLand reqToken userData)
                                        && isFriend w reqToken userData landId
                                     then visitors w (landOwnerMayhemId userData landId)
                                     else friendListData decodedMessage;
                                   land_fields := land_fields decodedMessage |}),
                           w1)
                      end
                end
            end
      end.
Proof.
  intros Htok. unfold get_protoland. rewrite Htok.
  set (w1 := match userByToken (users w) reqToken with | Some _ => _ | None => _ end).
  assert (Hw1 : users w1 = users w ∧ friends w1 = friends w ∧ files w1 = files w).
  { subst w1. destruct (userByToken (users w) reqToken) as [u|]; [|done].
    destruct (requestingUserMayhemId w reqToken); [|done].
    by destruct (truthy_onum (UserId u)). }
  destruct Hw1 as (Hu & Hf & Hfi).
  assert (Hq : landQuery w1 landId = landQuery w landId).
  { unfold landQuery. by rewrite Hu. }
  rewrite Hq. exists w1. repeat split; try done.
  destruct (landQuery w landId) as [userData|] eqn:Eq; [|done].
  assert (Hno : truthy_onum (UserId userData) = false).
  { unfold landQuery in Eq.
    destruct (List.find _ (users w)); [|discriminate].
    by injection Eq as <-. }
  rewrite Hno, andb_false_r. rewrite Hfi.
  unfold visitors. rewrite Hfi. reflexivity.
Qed.






End land_facts.

Section land_claims.
Context `{Platform}.
Import Land.




End land_claims.

Section token_facts.
Context `{Platform}.
Import Land.

Lemma update_user_keeps_tokens set id (t : list UserRow) :
  (∀ u, WholeLandToken (set u) = WholeLandToken u) →
  map WholeLandToken (update_user set id t) = map WholeLandToken t.
Proof.
  intros Hset. unfold update_user. rewrite map_map. apply map_ext.
  intros u. by destruct (sql_eq (MayhemId u) id).
Qed.

Lemma userByMayhemId_update set id (t : list UserRow) :
  (∀ u, MayhemId (set u) = MayhemId u) →
  userByMayhemId (update_user set (Some id) t) id
  = option_map set (userByMayhemId t id).
Proof.
  intros Hset. unfold userByMayhemId, update_user.
  induction t as [|u t IH]; simpl; [done|].
  destruct (sql_eq (MayhemId u) (Some id)) eqn:E.
  - by rewrite Hset, E.
  - by rewrite E.
Qed.

(** C1, as amended.  The land write and the currency update do not
    depend on the [land-update-token] header: two requests that agree on
    the bearer headers have the same response and the same effect.  A
    write leaves every stored save token as it was, and it succeeds
    whenever the bearer token is the account's.  A new save token is
    stored by the token route only. *)
Theorem write_ignores_save_token w nowMs landId (h h' : Headers) body :
  h !! "nucleus_token" = h' !! "nucleus_token" →
  h !! "mh_auth_params" = h' !! "mh_auth_params" →
  put_protoland w landId h body = put_protoland w landId h' body
  ∧ post_protoland w landId h body = post_protoland w landId h' body
  ∧ Currency.post_extraLandUpdate w nowMs landId h body
    = Currency.post_extraLandUpdate w nowMs landId h' body
  ∧ map WholeLandToken (users (put_protoland w landId h body).2)
    = map WholeLandToken (users w)
  ∧ (∀ reqToken userData,
       present (reqToken2 h) = Some reqToken →
       userByMayhemId (users w) landId = Some userData →
       UserAccessToken userData = Some reqToken →
       (put_protoland w landId h body).1 = LandUpdateResponse)
  ∧ (∀ rnd uuid hostname reqToken userData,
       present (reqToken2 h) = Some reqToken →
       userByMayhemId (users w) landId = Some userData →
       UserAccessToken userData = Some reqToken →
       ∃ u, userByMayhemId
              (users (post_protoWholeLandToken w nowMs rnd uuid hostname landId h).2)
              landId = Some u
            ∧ WholeLandToken u = Some uuid).
Proof.
  intros H1 H2.
  assert (Hput : put_protoland w landId h body = put_protoland w landId h' body).
  { unfold put_protoland, put_protoland_fs, reqToken2. by rewrite H1, H2. }
  split; [exact Hput|]. split; [exact Hput|]. split.
  { unfold Currency.post_extraLandUpdate, reqToken2. by rewrite H1, H2. }
  split; [|split].
  - unfold put_protoland, put_protoland_fs.
    destruct (present (reqToken2 h)) as [reqToken|]; [|done].
    destruct (userByMayhemId (users w) landId) as [userData|]; [|done].
    destruct (negb (strict_eq reqToken (UserAccessToken userData))); [done|].
    destruct (present (LandSavePath userData)); simpl; [done|].
    by apply update_user_keeps_tokens.
  - intros reqToken userData Htok Hu Hacc. unfold put_protoland, put_protoland_fs.
    rewrite Htok, Hu. unfold strict_eq.
    rewrite bool_decide_eq_true_2 by done. simpl.
    by destruct (present (LandSavePath userData)).
  - intros rnd uuid hostname reqToken userData Htok Hu Hacc.
    unfold post_protoWholeLandToken. rewrite Htok, Hu. unfold strict_eq.
    rewrite bool_decide_eq_true_2 by done. simpl.
    rewrite userByMayhemId_update by done.
    destruct (truthy_str landId && truthy_onum (UserId userData)); simpl.
    + rewrite userByMayhemId_update by done. rewrite Hu. simpl. eauto.
    + rewrite Hu. simpl. eauto.
Qed.

End token_facts.

(** ** Event mailbox *)

Section mailbox_facts.
Context `{Platform} `{!EventsRoundTrip}.
Import Events.

Lemma get_event_decodes w owner :
  ∃ b, get_event_protoland w owner = (Protobuf b, w)
       ∧ decodeEvents b = Some (load_events w (eventsFilePath owner)).
Proof.
  unfold get_event_protoland, load_events, empty_events.
  destruct (files w !! eventsFilePath owner) as [data|].
  - destruct (decodeEvents data) as [l|] eqn:E; eauto using events_round_trip.
  - eauto using events_round_trip.
Qed.

Lemma post_event_appends w uuid owner h body d :
  present (reqToken2 h) ≠ None →
  decodeEvent body = Some d →
  toPlayerId (stamp uuid owner d) = owner →
  load_events (post_event_protoland w uuid owner h body).2 (eventsFilePath owner)
  = (load_events w (eventsFilePath owner) ++ [stamp uuid owner d])%list.
Proof.
  intros Htok Hd Hto. unfold post_event_protoland.
  destruct (present (reqToken2 h)); [|done].
  rewrite Hd, Hto. unfold load_events at 1. simpl.
  by rewrite lookup_insert_eq, events_round_trip.
Qed.






End mailbox_facts.

(** ** Currency ledger *)

Section currency_claims.
Context `{Platform}.
Import Currency.

Lemma donutDelta_sum deltas :
  donutDelta deltas = foldr (λ cd acc, amount cd + acc) 0 deltas.
Proof.
  unfold donutDelta.
  assert (G : ∀ a, fold_left (λ acc cd, acc + amount cd) deltas a
                   = a + foldr (λ cd acc, amount cd + acc) 0 deltas).
  { induction deltas as [|cd l IH]; intros a; simpl; [lia|]. rewrite IH. lia. }
  rewrite G. lia.
Qed.

(** For an account whose currency path is registered, an update adds
    the sum of the amounts of the batch to the awarded total, writes a
    record whose balance is the new awarded total and whose purchased
    total is the one read, and answers with one processed delta per
    delta of the batch, in order, carrying its id.  Every writer of a
    currency record stores a purchased total of 0, and the balance
    written is then the awarded plus the purchased total. *)
Lemma applyDelta_effect w nowMs landId h body reqToken userData path file cd msg :
  present (reqToken2 h) = Some reqToken →
  userByMayhemId (users w) landId = Some userData →
  UserAccessToken userData = Some reqToken →
  present (CurrencySavePath userData) = Some path →
  files (ensureCurrencyFile w nowMs landId path startingDonuts) !! path = Some file →
  decodeCurrency file = Some cd →
  decodeExtraLand body = Some msg →
  let deltas := currencyDelta msg in
  let r := post_extraLandUpdate w nowMs landId h body in
  let cd' := applyDelta nowMs cd deltas in
  files r.2 !! path = Some (encodeCurrency cd')
  ∧ vcTotalAwarded cd'
    = vcTotalAwarded cd + foldr (λ d acc, amount d + acc) 0 deltas
  ∧ vcBalance cd' = vcTotalAwarded cd'
  ∧ vcTotalPurchased cd' = vcTotalPurchased cd
  ∧ (vcTotalPurchased cd = 0 →
     vcBalance cd' = vcTotalAwarded cd' + vcTotalPurchased cd')
  ∧ r.1 = Protobuf (encodeExtraLandResponse
                      {| processedCurrencyDelta := processed deltas;
                         processedEvent := []; receivedEvent := [];
                         communityGoal := [] |})
  ∧ length (processed deltas) = length deltas
  ∧ map delta_id (processed deltas) = map delta_id deltas.
Proof.
  intros Htok Hu Hacc Hpath Hfile Hcd Hmsg deltas r cd'. subst deltas r cd'.
  unfold post_extraLandUpdate. rewrite Htok, Hu. unfold strict_eq.
  rewrite bool_decide_eq_true_2 by done. simpl.
  rewrite Hpath. rewrite Hmsg, Hfile, Hcd.
  split.
  { destruct (truthy_onum (UserId userData)); simpl; apply lookup_insert_eq. }
  split; [simpl; by rewrite donutDelta_sum|].
  split; [done|]. split; [done|].
  split; [simpl; intros ->; lia|].
  split; [by destruct (truthy_onum (UserId userData))|].
  unfold processed. split; [apply length_map|].
  rewrite map_map. by apply map_ext.
Qed.

End currency_claims.

(** ** The handlers on the reference platform *)

Section examples.
Import Reference.







Lemma write_ignores_save_token_witness :
  Land.put_protoland world0 "42" (bearer "token42") (BRaw [])
  = Land.put_protoland world0 "42"
      (<["land-update-token":="stale"]> (bearer "token42")) (BRaw []).
Proof.
  refine (proj1 (write_ignores_save_token world0 0 "42" (bearer "token42")
                   (<["land-update-token":="stale"]> (bearer "token42"))
                   (BRaw []) _ _));
    vm_compute; reflexivity.
Defined.

(** C1 as stated fails: after a successful write that presented the
    stored token T1, a second write presenting T1 succeeds as well. *)
Lemma stale_token_write_accepted :
  ¬ (∀ (w : World) landId (h : Headers) body T1 userData,
       userByMayhemId (users w) landId = Some userData →
       WholeLandToken userData = Some T1 →
       h !! "land-update-token" = Some T1 →
       (Land.put_protoland w landId h body).1 = LandUpdateResponse →
       (Land.put_protoland (Land.put_protoland w landId h body).2 landId h body).1
       ≠ LandUpdateResponse).
Proof.
  intros Hall.
  apply (Hall world0 "42" (<["land-update-token":="T1"]> (bearer "token42"))
           (BRaw []) "T1" alice);
    vm_compute; reflexivity.
Qed.


(** C5.  Account 42 has no currency path registered.  Its first update
    registers the default path and initialises the file there, and then
    reads through [userData.CurrencySavePath], the column as it was
    selected, which is still empty: the request ends in the error
    handler, nothing is credited and no delta is acknowledged.  The same
    request sent again finds the path registered and is processed. *)
Theorem first_update_reads_stale_path :
  let r1 := Currency.post_extraLandUpdate world0 7 "42" (bearer "token42")
              (BExtraLand batch) in
  let r2 := Currency.post_extraLandUpdate r1.2 9 "42" (bearer "token42")
              (BExtraLand batch) in
  CurrencySavePath alice = None
  ∧ r1.1 = Next
  ∧ files r1.2 !! "data/42/42.currency"
    = Some (BCurrency {| currency_id := "42"; vcTotalPurchased := 0;
                         vcTotalAwarded := 0; vcBalance := 0;
                         currency_createdAt := 1715911362;
                         currency_updatedAt := 7 |})
  ∧ map CurrencySavePath (users r1.2) = [Some "data/42/42.currency"; None]
  ∧ r2.1 = Protobuf (BExtraLandResponse
                       {| processedCurrencyDelta :=
                            [ {| delta_id := 1; amount := 0; delta_fields := [] |} ];
                          processedEvent := []; receivedEvent := [];
                          communityGoal := [] |})
  ∧ files r2.2 !! "data/42/42.currency"
    = Some (BCurrency {| currency_id := "42"; vcTotalPurchased := 0;
                         vcTotalAwarded := 3; vcBalance := 3;
                         currency_createdAt := 1715911362;
                         currency_updatedAt := 9 |}).
Proof. vm_compute. repeat split. Qed.

End examples.

(** * Further properties of the modelled code *)

(** ** The session table *)

Section presence_more.
Import Presence.
Context `{StringCoercion}.

Lemma cleanup_lookup sm now u s :
  activeSessions (cleanup sm now) !! u = Some s ↔
  activeSessions sm !! u = Some s ∧ _isSessionStale sm now s = false.
Proof. unfold cleanup. simpl. by rewrite map_lookup_filter_Some. Qed.

(** The periodic sweep removes the stale sessions and no other: a
    session is in the table afterwards iff it was there and is not
    stale, so the sweep changes nobody's online status, and the player
    count, which evicts in the same way, is the number of accounts that
    are online. *)
Theorem sweep_keeps_online sm now :
  (∀ u s, activeSessions (cleanup sm now) !! u = Some s ↔
          activeSessions sm !! u = Some s ∧ _isSessionStale sm now s = false)
  ∧ (∀ u, isOnline (cleanup sm now) now u = isOnline sm now u)
  ∧ (getActivePlayerCount sm now).2 = cleanup sm now
  ∧ (getActivePlayerCount sm now).1
    = size (filter (λ u, isOnline sm now u = true) (dom (activeSessions sm))).
Proof.
  assert (Hon : ∀ u, isOnline (cleanup sm now) now u = isOnline sm now u).
  { intros u. apply eq_true_iff_eq. rewrite !isOnline_fresh. split.
    - intros (s & Hs & Hf). apply cleanup_lookup in Hs as [Hs _]. eauto.
    - intros (s & Hs & Hf). exists s. split; [|done].
      by apply cleanup_lookup. }
  split; [apply cleanup_lookup|]. split; [exact Hon|]. split; [done|].
  unfold getActivePlayerCount. simpl. rewrite <- size_dom.
  f_equal. apply dom_filter_L. intros u.
  rewrite elem_of_filter, elem_of_dom, isOnline_fresh. unfold is_Some. split.
  - intros [(s & Hs & Hf) _]. eauto.
  - intros (s & Hs & Hf). split; eauto.
Qed.

(** A read of a stale session returns null and deletes it, and the next
    [trackSession] then starts a new session: unless the metadata names
    them, [connectedAt] is the time of that call and [sessionId] is newly
    generated. *)
Theorem stale_read_restarts_session sm now now2 rnd u m h (ad : Session) s :
  activeSessions sm !! u = Some s →
  _isSessionStale sm now s = true →
  truthy_str u = true → truthy_str m = true →
  let r := getSession sm now u in
  r.1 = None
  ∧ activeSessions r.2 !! u = None
  ∧ (∀ u', u' ≠ u → activeSessions r.2 !! u' = activeSessions sm !! u')
  ∧ ∃ s', activeSessions (trackSession r.2 now2 rnd u m h ad).2 !! u = Some s'
      ∧ (ad !! "connectedAt" = None → s' !! "connectedAt" = Some (JNum now2))
      ∧ (ad !! "sessionId" = None →
         s' !! "sessionId" = Some (_generateSessionId now2 rnd)).
Proof.
  intros Hs Hst Hu Hm r. subst r. unfold getSession. rewrite Hs, Hst. simpl.
  split; [done|]. split; [apply lookup_delete_eq|]. split.
  { intros u' Hne. by rewrite lookup_delete_ne. }
  rewrite trackSession_lookup by done. simpl.
  rewrite lookup_delete_eq, lookup_insert_eq.
  eexists. split; [done|].
  split; intros Hk; by rewrite lookup_union_r, session_literal_lookup.
Qed.

(** [updateActivity] never creates a session: for an account without one
    it returns false and changes nothing.  For an account with a session,
    stale or not, it returns true, sets [lastActive] and keeps every other
    property, so the account is online from the time of the call until
    the timeout has passed again. *)
Theorem updateActivity_revives sm t1 now u :
  match activeSessions sm !! u with
  | None => updateActivity sm t1 u = (false, sm)
  | Some s =>
      (updateActivity sm t1 u).1 = true
      ∧ (∃ s', activeSessions (updateActivity sm t1 u).2 !! u = Some s'
               ∧ s' !! "lastActive" = Some (JNum t1)
               ∧ ∀ k, k ≠ "lastActive" → s' !! k = s !! k)
      ∧ (isOnline (updateActivity sm t1 u).2 now u = true
         ↔ now - t1 ≤ sessionTimeout sm)
  end
  ∧ ∀ u', u' ≠ u →
      activeSessions (updateActivity sm t1 u).2 !! u' = activeSessions sm !! u'.
Proof.
  split.
  - destruct (activeSessions sm !! u) as [s|] eqn:E.
    + rewrite (updateActivity_lookup sm t1 u s E).
      split; [unfold updateActivity; by rewrite E|]. split.
      * eexists. simpl. split; [apply lookup_insert_eq|].
        split; [apply lookup_insert_eq|].
        intros k Hk. by rewrite lookup_insert_ne.
      * refine (isOnline_numeric (with_sessions sm _) now u
                  (<["lastActive":=JNum t1]> s) t1 _ _);
          apply lookup_insert_eq.
    + unfold updateActivity. by rewrite E.
  - intros u' Hne. unfold updateActivity.
    destruct (activeSessions sm !! u); simpl; [|done].
    by rewrite lookup_insert_ne.
Qed.

(** The visiting context: after [setVisitingFriend] with a non-empty
    friend id on an account that has a session, [getVisitingFriend]
    returns that id; after [clearVisitingFriend] it returns null; and a
    [trackSession] whose metadata does not name the property forgets the
    visit, because it stores a new object. *)
Theorem visiting_friend_round_trip sm now now2 rnd u m h (ad : Session) f s :
  activeSessions sm !! u = Some s →
  truthy_str f = true →
  truthy_str u = true → truthy_str m = true →
  ad !! "visitingFriendId" = None →
  let sm1 := (setVisitingFriend sm now u f).2 in
  (setVisitingFriend sm now u f).1 = true
  ∧ getVisitingFriend sm1 u = Some (JStr f)
  ∧ (∀ u', u' ≠ u → getVisitingFriend sm1 u' = getVisitingFriend sm u')
  ∧ getVisitingFriend (clearVisitingFriend sm1 u).2 u = None
  ∧ getVisitingFriend (trackSession sm1 now2 rnd u m h ad).2 u = None.
Proof.
  intros Hs Hf Hu Hm Had sm1. subst sm1.
  unfold setVisitingFriend. rewrite Hs. simpl.
  split; [done|]. split.
  { unfold getVisitingFriend. simpl. rewrite lookup_insert_eq.
    rewrite lookup_insert_ne by done. rewrite lookup_insert_eq. simpl.
    by rewrite Hf. }
  split.
  { intros u' Hne. unfold getVisitingFriend. simpl.
    by rewrite lookup_insert_ne. }
  split.
  - unfold clearVisitingFriend, getVisitingFriend. simpl.
    rewrite lookup_insert_eq. simpl. rewrite lookup_insert_eq.
    rewrite lookup_delete_ne by done. by rewrite lookup_delete_eq.
  - rewrite trackSession_lookup by done. unfold getVisitingFriend. simpl.
    rewrite lookup_insert_eq.
    rewrite lookup_union_r by done. by rewrite session_literal_lookup.
Qed.

(** [endSession] reports whether there was a session and removes it:
    the account is offline at every later time and [updateActivity]
    cannot bring it back. *)
Theorem endSession_is_final sm now t1 u :
  let r := endSession sm u in
  (r.1 = true ↔ is_Some (activeSessions sm !! u))
  ∧ isOnline r.2 now u = false
  ∧ updateActivity r.2 t1 u = (false, r.2)
  ∧ isOnline (updateActivity r.2 t1 u).2 now u = false.
Proof.
  intros r. subst r. unfold endSession. simpl.
  assert (Hoff : ∀ sm', activeSessions sm' !! u = None → isOnline sm' now u = false).
  { intros sm' Hn. unfold isOnline, getSession. by rewrite Hn. }
  assert (Hup : updateActivity (with_sessions sm (delete u (activeSessions sm))) t1 u
                = (false, with_sessions sm (delete u (activeSessions sm)))).
  { unfold updateActivity. simpl. by rewrite lookup_delete_eq. }
  split; [apply bool_decide_eq_true|].
  split; [apply Hoff; apply lookup_delete_eq|].
  split; [exact Hup|]. rewrite Hup. apply Hoff. apply lookup_delete_eq.
Qed.

End presence_more.

Section presence_more_examples.
Import Presence Reference.

Lemma stale_read_restarts_session_witness :
  let sm := (trackSession constructor 0 "r1" "1042" "42" "host" ∅).2 in
  ∃ s', activeSessions
          (trackSession (getSession sm 400000 "1042").2 400000 "r2" "1042" "42"
             "host" ∅).2 !! "1042" = Some s'
        ∧ s' !! "connectedAt" = Some (JNum 400000).
Proof.
  intros sm.
  destruct (stale_read_restarts_session sm 400000 400000 "r2" "1042" "42" "host" ∅
              (session_literal 0 "1042" "42" "host" (Some (JNum 0))
                 (Some (_generateSessionId 0 "r1"))))
    as (_ & _ & _ & s' & Hs & Hc & _); try (vm_compute; reflexivity).
  exists s'. split; [exact Hs|]. apply Hc. vm_compute; reflexivity.
Defined.

Lemma visiting_friend_round_trip_witness :
  let sm := (trackSession constructor 0 "r1" "1042" "42" "host" ∅).2 in
  getVisitingFriend (setVisitingFriend sm 5 "1042" "43").2 "1042" = Some (JStr "43").
Proof.
  intros sm.
  refine (proj1 (proj2 (visiting_friend_round_trip sm 5 9 "r2" "1042" "42" "host" ∅
                          "43"
                          (session_literal 0 "1042" "42" "host" (Some (JNum 0))
                             (Some (_generateSessionId 0 "r1")))
                          _ _ _ _ _)));
    vm_compute; reflexivity.
Defined.

End presence_more_examples.

(** ** The friend routes *)

Section friends_more.
Context `{Platform}.
Import Friends.

Lemma isAccepted_update_frame p t a b :
  (∀ r, p r = true → edge (Some a) (Some b) r = false) →
  isAccepted (sql_update p "accepted" t) a b = isAccepted t a b.
Proof.
  intros Hp. unfold isAccepted, sql_update.
  induction t as [|r t IH]; simpl; [done|]. rewrite IH. f_equal.
  destruct (p r) eqn:E; [|done].
  assert (He : edge (Some a) (Some b) (set_status "accepted" r)
               = edge (Some a) (Some b) r) by done.
  rewrite He, (Hp r E). done.
Qed.

Lemma isAccepted_delete_frame p t a b :
  (∀ r, p r = true → edge (Some a) (Some b) r && has_status "accepted" r = false) →
  isAccepted (sql_delete p t) a b = isAccepted t a b.
Proof.
  intros Hp. unfold isAccepted, sql_delete.
  induction t as [|r t IH]; simpl; [done|].
  destruct (p r) eqn:E; simpl.
  - by rewrite IH, (Hp r E).
  - by rewrite IH.
Qed.

Lemma edge_other a b a' b' r :
  (a', b') ≠ (a, b) → edge (Some a) (Some b) r = true →
  edge (Some a') (Some b') r = false.
Proof.
  intros Hne He. apply edge_true in He as [Ho Hf].
  apply not_true_is_false. intros He'. apply edge_true in He' as [Ho' Hf'].
  apply Hne. congruence.
Qed.

Lemma update_clears_pending p t :
  (∀ r, p r = true → has_status "pending" r = true) →
  changes p (sql_update p "accepted" t) = 0%nat.
Proof.
  intros Hp. unfold changes, sql_update.
  induction t as [|r t IH]; simpl; [done|].
  destruct (p r) eqn:E.
  - destruct (p (set_status "accepted" r)) eqn:E'; [|exact IH].
    apply Hp in E'. unfold has_status in E'. simpl in E'. discriminate E'.
  - by rewrite E.
Qed.

(** Accepting twice is accepting once: after the accept route has run,
    a second run for the same pair finds no pending row, inserts no
    second reciprocal row and leaves the table as it is. *)
Theorem inbound_accept_idempotent users t now1 now2 userId fromParam :
  let r1 := post_invitations_inbound users t now1 userId fromParam in
  post_invitations_inbound users r1.2 now2 userId fromParam = (NoContent, r1.2).
Proof.
  intros r1. subst r1. unfold post_invitations_inbound.
  destruct (getUserByIdParam users userId) as [user|]; [|done].
  destruct (getUserByIdParam users fromParam) as [fromUser|]; [|done].
  set (p := λ r, edge (MayhemId fromUser) (MayhemId user) r && has_status "pending" r).
  destruct (bool_decide (changes p t = 0%nat)) eqn:E; simpl.
  - by rewrite E.
  - assert (Hz : changes p
             (sql_insert (MayhemId user) (MayhemId fromUser) "accepted" (seconds now1)
                (sql_update p "accepted" t)) = 0%nat).
    { unfold sql_insert, changes. rewrite List.filter_app, length_app.
      fold (changes p (sql_update p "accepted" t)).
      rewrite update_clears_pending.
      - simpl. unfold p at 1. unfold has_status. simpl.
        by rewrite andb_false_r.
      - intros r Hr. unfold p in Hr. by apply andb_prop in Hr as [_ ?]. }
    by rewrite bool_decide_eq_true_2.
Qed.


Lemma changes_pos_elem p t :
  changes p t ≠ 0%nat → ∃ r, r ∈ t ∧ p r = true.
Proof.
  unfold changes. destruct (List.filter p t) as [|r l] eqn:E; [done|].
  intros _. exists r.
  assert (In r (List.filter p t)) as Hin by (rewrite E; by left).
  apply filter_In in Hin as [Hin Hp]. split; [by apply list_elem_of_In | done].
Qed.

(** The legacy accept route answers 404 and changes nothing when there
    is no pending row from the sender to the acceptor.  Otherwise it
    turns those rows to accepted and touches nothing else: no row is
    added, so the sender has the acceptor as a friend while every other
    ordered pair, the opposite direction included, is as before. *)
Theorem legacy_accept_one_direction t body fromId acceptorId :
  present (body !! "fromId") = Some fromId →
  present (body !! "acceptorId") = Some acceptorId →
  let pending r := edge (Some fromId) (Some acceptorId) r && has_status "pending" r in
  let r := post_friend_accept t body in
  (List.existsb pending t = false →
   r = (json_error 404 "Friend request not found", t))
  ∧ (List.existsb pending t = true →
     r.1 = json_status 200 "accepted"
     ∧ length r.2 = length t
     ∧ isAccepted r.2 fromId acceptorId = true
     ∧ ∀ a b, (a, b) ≠ (fromId, acceptorId) → isAccepted r.2 a b = isAccepted t a b).
Proof.
  intros Hf Ha pending r. subst r. unfold post_friend_accept.
  rewrite Hf, Ha. fold pending. split.
  - intros Hex. rewrite bool_decide_eq_true_2; [done|].
    unfold changes. destruct (List.filter pending t) as [|r l] eqn:E; [done|].
    assert (In r (List.filter pending t)) as Hin by (rewrite E; by left).
    apply filter_In in Hin as [Hin Hp].
    assert (List.existsb pending t = true) by (apply existsb_exists; eauto).
    congruence.
  - intros Hex. apply existsb_exists in Hex as (r & Hin & Hp).
    rewrite bool_decide_eq_false_2.
    2:{ unfold changes. intros Hz. apply length_zero_iff_nil in Hz.
        assert (In r (List.filter pending t)) as Hr by (by apply filter_In).
        rewrite Hz in Hr. destruct Hr. }
    simpl. split; [done|]. split; [unfold sql_update; apply length_map|]. split.
    + apply isAccepted_true. exists (set_status "accepted" r).
      destruct (andb_prop _ _ Hp) as [He Hs]. apply edge_true in He as [Ho Hfr].
      split; [|done]. unfold sql_update. apply list_elem_of_fmap.
      exists r. split; [|by apply list_elem_of_In]. by rewrite Hp.
    + intros a b Hne. apply isAccepted_update_frame.
      intros r' Hr'. apply andb_prop in Hr' as [He _].
      by eapply edge_other.
Qed.

(** The legacy decline route deletes pending rows only: whatever it
    answers, every accepted friendship is as before; and when it answers
    success no pending row from the sender to the decliner is left. *)
Theorem legacy_decline_keeps_accepted t body :
  let r := post_friend_decline t body in
  (∀ a b, isAccepted r.2 a b = isAccepted t a b)
  ∧ (∀ fromId declinerId,
       present (body !! "fromId") = Some fromId →
       present (body !! "declinerId") = Some declinerId →
       r.1 = Json 200 {[ "success" := JBool true ]} →
       ∀ row, row ∈ r.2 → ownerMayhemId row = Some fromId →
              friendMayhemId row = Some declinerId → status row ≠ "pending").
Proof.
  intros r. subst r. unfold post_friend_decline. split.
  - intros a b.
    destruct (present (body !! "fromId")) as [fromId|]; [|done].
    destruct (present (body !! "declinerId")) as [declinerId|]; [|done].
    destruct (bool_decide _); simpl; [done|].
    apply isAccepted_delete_frame. intros row Hp.
    apply andb_prop in Hp as [_ Hs]. apply bool_decide_eq_true in Hs.
    unfold has_status. rewrite Hs. simpl. apply andb_false_r.
  - intros fromId declinerId -> ->.
    destruct (bool_decide _); simpl; [discriminate|].
    intros _ row Hin Ho Hfr Hs. apply sql_delete_elem in Hin as [_ Hn].
    rewrite (proj2 (edge_true _ _ row)) in Hn by done.
    unfold has_status in Hn. rewrite Hs in Hn. simpl in Hn. discriminate.
Qed.

(** The legacy remove route deletes the accepted rows of one direction
    only: on success the remover no longer has the other account as a
    friend, and every other ordered pair, the opposite direction
    included, is as before.  A pair accepted in both directions is left
    accepted in one. *)
Theorem legacy_remove_one_direction t body fromId toId :
  present (body !! "fromId") = Some fromId →
  present (body !! "toId") = Some toId →
  let r := post_friend_remove t body in
  (isAccepted t fromId toId = false →
   r = (json_error 404 "Friend relationship not found", t))
  ∧ (isAccepted t fromId toId = true →
     r.1 = Json 200 {[ "success" := JBool true ]}
     ∧ isAccepted r.2 fromId toId = false)
  ∧ ∀ a b, (a, b) ≠ (fromId, toId) → isAccepted r.2 a b = isAccepted t a b.
Proof.
  intros Hf Ht r. subst r. unfold post_friend_remove. rewrite Hf, Ht.
  set (p := λ r, edge (Some fromId) (Some toId) r && has_status "accepted" r).
  assert (Hacc : isAccepted t fromId toId = List.existsb p t) by done.
  split; [|split].
  - intros Hno. rewrite bool_decide_eq_true_2; [done|].
    unfold changes. destruct (List.filter p t) as [|r l] eqn:E; [done|].
    assert (In r (List.filter p t)) as Hin by (rewrite E; by left).
    apply filter_In in Hin as [Hin Hp].
    assert (List.existsb p t = true) by (apply existsb_exists; eauto).
    congruence.
  - intros Hyes. rewrite Hacc in Hyes.
    apply existsb_exists in Hyes as (r & Hin & Hp).
    rewrite bool_decide_eq_false_2.
    2:{ unfold changes. intros Hz. apply length_zero_iff_nil in Hz.
        assert (In r (List.filter p t)) as Hr by (by apply filter_In).
        rewrite Hz in Hr. destruct Hr. }
    simpl. split; [done|].
    apply isAccepted_false. intros row Hrow Ho Hfr Hs.
    apply sql_delete_elem in Hrow as [_ Hn]. unfold p in Hn.
    rewrite (proj2 (edge_true _ _ row)) in Hn by done.
    unfold has_status in Hn. rewrite Hs in Hn. simpl in Hn. discriminate.
  - intros a b Hne. destruct (bool_decide _); simpl; [done|].
    apply isAccepted_delete_frame. intros row Hp.
    apply andb_prop in Hp as [He _].
    by rewrite (edge_other _ _ _ _ row Hne He).
Qed.



End friends_more.

(** ** The mailbox *)

Section mailbox_more.
Context `{Platform}.
Import Events.

(** What a post to the mailbox can change and what it looks at.  It
    leaves the accounts, the friend rows and the sessions alone and
    writes at most one file, the events file of the owner the stored
    event names.  Its answer and the files it leaves are the same in any
    two worlds with the same files: neither the token's account nor the
    friend rows are consulted.  A body that does not decode is answered
    like a stored event and changes nothing. *)
Theorem event_post_effects (w w' : World) uuid owner h body :
  let r := post_event_protoland w uuid owner h body in
  users r.2 = users w ∧ friends r.2 = friends w ∧ sessions r.2 = sessions w
  ∧ (∀ d path, decodeEvent body = Some d →
       path ≠ eventsFilePath (toPlayerId (stamp uuid owner d)) →
       files r.2 !! path = files w !! path)
  ∧ (files w' = files w →
     (post_event_protoland w' uuid owner h body).1 = r.1
     ∧ files (post_event_protoland w' uuid owner h body).2 = files r.2)
  ∧ (present (reqToken2 h) ≠ None → decodeEvent body = None →
     r = (LandUpdateResponse, w)).
Proof.
  intros r. subst r. unfold post_event_protoland.
  destruct (present (reqToken2 h)) as [tok|]; simpl.
  - destruct (decodeEvent body) as [d|] eqn:Ed; simpl.
    + split; [done|]. split; [done|]. split; [done|]. split.
      { intros d' path [= <-] Hne. by rewrite lookup_insert_ne. }
      split; [|done].
      intros Hfiles. unfold load_events. by rewrite Hfiles.
    + repeat split; done.
  - repeat split; done.
Qed.

Context `{!EventsRoundTrip}.

(** An events file that does not decode is treated as an empty queue:
    the GET answers with the empty message and writes nothing, and the
    next post replaces the file, after which the GET returns exactly the
    event just stored. *)
Theorem corrupt_mailbox_recovers w owner data post e :
  files w !! eventsFilePath owner = Some data →
  decodeEvents data = None →
  queued owner post e →
  get_event_protoland w owner = (Protobuf (encodeEvents []), w)
  ∧ ∃ b, (get_event_protoland (post_events w owner [post]) owner).1 = Protobuf b
         ∧ decodeEvents b = Some [e].
Proof.
  intros Hfile Hdec Hq. split.
  - unfold get_event_protoland, empty_events. by rewrite Hfile, Hdec.
  - destruct post as [[uuid h] body]. destruct Hq as (Htok & d & Hd & -> & Hto).
    simpl in Htok, Hd, Hto.
    destruct (get_event_decodes (post_events w owner [(uuid, h, body)]) owner)
      as (b & Hb & Hdb).
    exists b. rewrite Hb. split; [done|]. rewrite Hdb. unfold post_events. simpl.
    rewrite (post_event_appends w uuid owner h body d) by done.
    unfold load_events. by rewrite Hfile, Hdec.
Qed.

End mailbox_more.

Section visitors_more.
Context `{Platform}.
Import Land.

Lemma unique_spec (l : list string) :
  NoDup (unique l) ∧ ∀ x, x ∈ unique l ↔ x ∈ l.
Proof.
  induction l as [|a l [IHn IHm]]; simpl.
  - split; [constructor | done].
  - assert (Hfm : ∀ x, x ∈ List.filter (λ y, negb (bool_decide (y = a))) (unique l)
                       ↔ x ≠ a ∧ x ∈ l).
    { intros x. rewrite list_elem_of_In, filter_In, <- list_elem_of_In, IHm.
      rewrite negb_true_iff, bool_decide_eq_false. tauto. }
    split.
    + constructor.
      * rewrite Hfm. tauto.
      * apply NoDup_ListNoDup, List.NoDup_filter, NoDup_ListNoDup, IHn.
    + intros x. rewrite elem_of_cons, elem_of_cons, Hfm.
      destruct (decide (x = a)); tauto.
Qed.

(** The visitor list shown to a visiting friend names each sender of a
    queued event once: it has no duplicate and an id is in it iff some
    event of the owner's queue was sent by it.  Every entry is marked as
    visited and shown on the map. *)
Theorem visitors_are_the_senders (w : World) owner :
  NoDup (map friendID (visitors w owner))
  ∧ (∀ x, x ∈ map friendID (visitors w owner)
          ↔ ∃ e, e ∈ Events.load_events w (Events.eventsFilePath owner)
                 ∧ fromPlayerId e = x)
  ∧ ∀ v, v ∈ visitors w owner →
         hasBeenVisited v = true ∧ hideInMap v = false ∧ isOrigin v = false.
Proof.
  unfold visitors, Events.load_events.
  set (ids := match files w !! Events.eventsFilePath owner with
              | Some eventsData =>
                  match decodeEvents eventsData with
                  | Some event => unique (map fromPlayerId event)
                  | None => []
                  end
              | None => []
              end).
  assert (Hmap : map friendID
                   (map (λ visitorId,
                           {| header_id := 0; friendID := visitorId;
                              hasBeenVisited := true; hideInMap := false;
                              isOrigin := false |}) ids) = ids).
  { rewrite map_map. simpl. apply map_id. }
  rewrite Hmap. split; [|split].
  - subst ids. destruct (files w !! _) as [data|]; [|constructor].
    destruct (decodeEvents data); [apply unique_spec | constructor].
  - intros x. subst ids. destruct (files w !! _) as [data|].
    + destruct (decodeEvents data) as [l|].
      * rewrite (proj2 (unique_spec _)), list_elem_of_fmap. split.
        -- intros (e & -> & He). eauto.
        -- intros (e & He & <-). eauto.
      * split; [by intros ?%elem_of_nil | by intros (e & ?%elem_of_nil & _)].
    + split; [by intros ?%elem_of_nil | by intros (e & ?%elem_of_nil & _)].
  - intros v Hv. apply list_elem_of_fmap in Hv as (x & -> & _). done.
Qed.

End visitors_more.

(** ** Land documents: writes, reads and save tokens *)

Section land_more.
Context `{Platform}.
Import Land.

Lemma append_inv_head (s a b : string) : s +:+ a = s +:+ b → a = b.
Proof. induction s as [|c s IH]; simpl; [done|]. intros [= ?]. by apply IH. Qed.

Lemma append_nonempty (s t : string) : t ≠ "" → s +:+ t ≠ "".
Proof. destruct s; simpl; [done | discriminate]. Qed.

Lemma land_path_not_events id :
  player_file id ".land" ≠ Events.eventsFilePath id.
Proof.
  unfold Events.eventsFilePath, player_file. intros E.
  repeat apply append_inv_head in E. discriminate.
Qed.

Lemma land_path_truthy id : present (Some (player_file id ".land")) = Some (player_file id ".land").
Proof.
  unfold present, truthy_ostr, truthy_str.
  rewrite bool_decide_eq_false_2; [done|].
  unfold player_file. repeat (apply append_nonempty). discriminate.
Qed.

Lemma present_Some (o : option string) p : present o = Some p → o = Some p.
Proof. unfold present. by destruct (truthy_ostr o). Qed.

Lemma landQuery_by_mayhemId (w : World) landId :
  (∀ u n, u ∈ users w → UserId u = Some n → int_eq_text n landId = false) →
  landQuery w landId = option_map without_UserId (userByMayhemId (users w) landId).
Proof.
  unfold landQuery, userByMayhemId. intros Hno. f_equal.
  induction (users w) as [|u t IH]; simpl; [done|].
  assert (Hu : match UserId u with
               | Some n => int_eq_text n landId
               | None => false
               end = false).
  { destruct (UserId u) as [n|] eqn:E; [|done].
    apply (Hno u n); [by left | done]. }
  rewrite Hu, orb_false_r. rewrite IH; [done|].
  intros u' n Hin. apply Hno. by right.
Qed.

(** A land written by its owner is read back by the owner: after a
    write whose body is not empty and decodes, a read with the same
    token returns the written document under the requested id.  This
    holds for a first write, which registers the default path, and for a
    stored path other than the events file, as long as the id is not the
    text of some account's UserId. *)
Theorem write_then_read w nowMs rnd hostname landId h body reqToken userData m :
  present (reqToken2 h) = Some reqToken →
  userByMayhemId (users w) landId = Some userData →
  UserAccessToken userData = Some reqToken →
  (∀ u n, u ∈ users w → UserId u = Some n → int_eq_text n landId = false) →
  LandSavePath userData ≠ Some (Events.eventsFilePath landId) →
  byteLength body ≠ 0%nat →
  decodeLand body = Some m →
  (put_protoland w landId h body).1 = LandUpdateResponse
  ∧ (get_protoland (put_protoland w landId h body).2 nowMs rnd hostname landId h).1
    = Protobuf (encodeLand {| land_id := landId;
                              friendListData := friendListData m;
                              land_fields := land_fields m |}).
Proof.
  intros Htok Hu Hacc Hno Hpath Hlen Hdec.
  set (savePath := match present (LandSavePath userData) with
                   | Some p => p
                   | None => player_file landId ".land"
                   end).
  assert (Hsp : savePath ≠ Events.eventsFilePath landId).
  { subst savePath. destruct (present (LandSavePath userData)) as [p|] eqn:E.
    - apply present_Some in E. congruence.
    - apply land_path_not_events. }
  set (userData1 := match present (LandSavePath userData) with
                    | Some _ => userData
                    | None => set_LandSavePath (Some (player_file landId ".land")) userData
                    end).
  assert (Hput : ∃ w1, put_protoland w landId h body = (LandUpdateResponse, w1)
                  ∧ userByMayhemId (users w1) landId = Some userData1
                  ∧ (∀ u n, u ∈ users w1 → UserId u = Some n →
                            int_eq_text n landId = false)
                  ∧ files w1 !! savePath = Some body).
  { unfold put_protoland, put_protoland_fs. rewrite Htok, Hu. unfold strict_eq.
    rewrite bool_decide_eq_true_2 by done. simpl.
    subst savePath userData1.
    destruct (present (LandSavePath userData)) as [p|] eqn:E; simpl in *.
    - eexists. split; [done|]. simpl. split; [done|]. split; [done|].
      rewrite lookup_delete_ne by done. apply lookup_insert_eq.
    - eexists. split; [done|]. simpl. split.
      { rewrite userByMayhemId_update by done. by rewrite Hu. }
      split.
      { intros u n Hin. unfold update_user in Hin.
        apply list_elem_of_fmap in Hin as (u0 & -> & Hin0).
        destruct (sql_eq (MayhemId u0) (Some landId)); simpl; by apply Hno. }
      rewrite lookup_delete_ne by done. apply lookup_insert_eq. }
  destruct Hput as (w1 & -> & Hu1 & Hno1 & Hfile). simpl. split; [done|].
  destruct (get_protoland_unfold w1 nowMs rnd hostname landId h reqToken Htok)
    as (w2 & _ & _ & _ & ->).
  rewrite (landQuery_by_mayhemId w1 landId Hno1), Hu1. simpl.
  assert (Hown : isOwnLand reqToken (without_UserId userData1) = true).
  { unfold isOwnLand, strict_eq. simpl. apply bool_decide_eq_true.
    subst userData1. by destruct (present (LandSavePath userData)). }
  rewrite Hown. simpl.
  assert (Hp1 : present (LandSavePath userData1) = Some savePath).
  { subst userData1 savePath. simpl.
    destruct (present (LandSavePath userData)) as [p|] eqn:E; [done|].
    apply land_path_truthy. }
  rewrite Hp1, Hfile. rewrite bool_decide_eq_false_2 by done. by rewrite Hdec.
Qed.

(** What a land read can change.  The accounts, the friend rows and the
    files are as before, whatever the answer; in the session table a
    read creates and removes nothing, and only the reader's [lastActive]
    can differ. *)
Theorem land_read_effects w nowMs rnd hostname landId h :
  let w1 := (get_protoland w nowMs rnd hostname landId h).2 in
  users w1 = users w ∧ friends w1 = friends w ∧ files w1 = files w
  ∧ Presence.sessionTimeout (sessions w1) = Presence.sessionTimeout (sessions w)
  ∧ ∀ u, match Presence.activeSessions (sessions w) !! u with
         | None => Presence.activeSessions (sessions w1) !! u = None
         | Some s =>
             ∃ s', Presence.activeSessions (sessions w1) !! u = Some s'
                   ∧ ∀ k, k ≠ "lastActive" → s' !! k = s !! k
         end.
Proof.
  intros w1. subst w1.
  assert (Hkeep : ∀ u, match Presence.activeSessions (sessions w) !! u with
                       | None => Presence.activeSessions (sessions w) !! u = None
                       | Some s =>
                           ∃ s', Presence.activeSessions (sessions w) !! u = Some s'
                                 ∧ ∀ k, k ≠ "lastActive" → s' !! k = s !! k
                       end).
  { intros u. destruct (Presence.activeSessions (sessions w) !! u) eqn:E; eauto. }
  assert (Hupd : ∀ uid u,
            match Presence.activeSessions (sessions w) !! u with
            | None => Presence.activeSessions
                        (Presence.updateActivity (sessions w) nowMs uid).2 !! u = None
            | Some s =>
                ∃ s', Presence.activeSessions
                        (Presence.updateActivity (sessions w) nowMs uid).2 !! u = Some s'
                      ∧ ∀ k, k ≠ "lastActive" → s' !! k = s !! k
            end).
  { intros uid u. unfold Presence.updateActivity.
    destruct (Presence.activeSessions (sessions w) !! uid) as [su|] eqn:Eu; simpl.
    - destruct (decide (u = uid)) as [->|Hne].
      + rewrite Eu, lookup_insert_eq. eexists. split; [done|].
        intros k Hk. by rewrite lookup_insert_ne.
      + rewrite lookup_insert_ne by done. apply Hkeep.
    - apply Hkeep. }
  assert (Htime : ∀ uid, Presence.sessionTimeout
                           (Presence.updateActivity (sessions w) nowMs uid).2
                         = Presence.sessionTimeout (sessions w)).
  { intros uid. unfold Presence.updateActivity.
    by destruct (Presence.activeSessions (sessions w) !! uid). }
  unfold get_protoland.
  destruct (present (reqToken2 h)) as [reqToken|]; [|done].
  set (w1 := match userByToken (users w) reqToken with | Some _ => _ | None => _ end).
  assert (Hw1 : users w1 = users w ∧ friends w1 = friends w ∧ files w1 = files w
                ∧ Presence.sessionTimeout (sessions w1)
                  = Presence.sessionTimeout (sessions w)
                ∧ ∀ u, match Presence.activeSessions (sessions w) !! u with
                       | None => Presence.activeSessions (sessions w1) !! u = None
                       | Some s =>
                           ∃ s', Presence.activeSessions (sessions w1) !! u = Some s'
                                 ∧ ∀ k, k ≠ "lastActive" → s' !! k = s !! k
                       end).
  { subst w1. destruct (userByToken (users w) reqToken) as [ru|]; [|done].
    destruct (requestingUserMayhemId w reqToken); [|done].
    destruct (truthy_onum (UserId ru)); [|done].
    simpl. repeat split; try done. apply Hupd. }
  destruct (landQuery w1 landId) as [userData|] eqn:Eq; [|done].
  assert (Hno : truthy_onum (UserId userData) = false).
  { unfold landQuery in Eq. destruct (List.find _ (users w1)); [|discriminate].
    by injection Eq as <-. }
  rewrite Hno, andb_false_r.
  destruct (negb (isOwnLand reqToken userData)
            && negb (isFriend w reqToken userData landId)); [done|].
  destruct (present (LandSavePath userData)); [|done].
  destruct (files w1 !! s); [|done].
  destruct (bool_decide _); [done|].
  by destruct (decodeLand b).
Qed.

(** What a land write can change.  It never touches the friend rows or
    the sessions.  A write answered with one of the XML errors changes
    nothing at all.  A write that passed the checks leaves every file
    other than the save path and the owner's events file as it was,
    rewrites the accounts only when the owner had no save path yet, and
    leaves the owner with the save path registered.  That holds as well
    when the write then fails in the file system: the request ends in
    the error handler, no file is written or removed, and the
    registration stays, so a write that is not answered with success can
    still have changed the accounts. *)
Theorem land_write_effects fs_ok w landId h body :
  let r := put_protoland_fs fs_ok w landId h body in
  friends r.2 = friends w ∧ sessions r.2 = sessions w
  ∧ ((∃ code type field, r.1 = XmlError code type field) → r.2 = w)
  ∧ (r.1 = Next → fs_ok = false ∧ files r.2 = files w)
  ∧ (r.1 = LandUpdateResponse → fs_ok = true)
  ∧ ∀ userData,
      userByMayhemId (users w) landId = Some userData →
      let savePath := match present (LandSavePath userData) with
                      | Some p => p
                      | None => player_file landId ".land"
                      end in
      (∀ path, path ≠ savePath → path ≠ Events.eventsFilePath landId →
               files r.2 !! path = files w !! path)
      ∧ (present (LandSavePath userData) ≠ None → users r.2 = users w)
      ∧ (r.1 = LandUpdateResponse ∨ r.1 = Next →
         ∃ u, userByMayhemId (users r.2) landId = Some u
              ∧ present (LandSavePath u) = Some savePath).
Proof.
  intros r. subst r. unfold put_protoland_fs.
  destruct (present (reqToken2 h)) as [reqToken|];
    [|by repeat split; try (intros [[=]|[=]])].
  destruct (userByMayhemId (users w) landId) as [userData|] eqn:Hu;
    [|by repeat split; try (intros [[=]|[=]])].
  destruct (negb (strict_eq reqToken (UserAccessToken userData))).
  { split; [done|]. split; [done|]. split; [done|]. split; [done|].
    split; [done|].
    intros ? [= <-]. cbv zeta. repeat split; try done. by intros [[=]|[=]]. }
  destruct (present (LandSavePath userData)) as [p|] eqn:E, fs_ok; simpl.
  - split; [done|]. split; [done|]. split; [by intros (? & ? & ? & [=])|].
    split; [done|]. split; [done|].
    intros ? [= <-]. rewrite E. simpl. split; [|split].
    + intros path H1 H2. rewrite lookup_delete_ne, lookup_insert_ne; done.
    + done.
    + intros _. exists userData. by rewrite Hu.
  - split; [done|]. split; [done|]. split; [by intros (? & ? & ? & [=])|].
    split; [done|]. split; [done|].
    intros ? [= <-]. rewrite E. simpl. split; [|split].
    + done.
    + done.
    + intros _. exists userData. by rewrite Hu.
  - split; [done|]. split; [done|]. split; [by intros (? & ? & ? & [=])|].
    split; [done|]. split; [done|].
    intros ? [= <-]. rewrite E. simpl. split; [|split].
    + intros path H1 H2. rewrite lookup_delete_ne, lookup_insert_ne; done.
    + done.
    + intros _. rewrite userByMayhemId_update by done. rewrite Hu. simpl.
      eexists. split; [done|]. simpl. apply land_path_truthy.
  - split; [done|]. split; [done|]. split; [by intros (? & ? & ? & [=])|].
    split; [done|]. split; [done|].
    intros ? [= <-]. rewrite E. simpl. split; [|split].
    + done.
    + done.
    + intros _. rewrite userByMayhemId_update by done. rewrite Hu. simpl.
      eexists. split; [done|]. simpl. apply land_path_truthy.
Qed.

End land_more.

Section token_more.
Context `{Platform} `{!TokenCodec}.
Import Land.

Lemma issue_token_stored w nowMs rnd uuid hostname mayhemId h reqToken userData :
  present (reqToken2 h) = Some reqToken →
  userByMayhemId (users w) mayhemId = Some userData →
  UserAccessToken userData = Some reqToken →
  ∃ u, userByMayhemId
         (users (post_protoWholeLandToken w nowMs rnd uuid hostname mayhemId h).2)
         mayhemId = Some u
       ∧ WholeLandToken u = Some uuid ∧ UserAccessToken u = Some reqToken.
Proof.
  intros Htok Hu Hacc. unfold post_protoWholeLandToken. rewrite Htok, Hu.
  unfold strict_eq. rewrite bool_decide_eq_true_2 by done. simpl.
  rewrite userByMayhemId_update by done.
  destruct (truthy_str mayhemId && truthy_onum (UserId userData)); simpl.
  - rewrite userByMayhemId_update by done. rewrite Hu. simpl. eauto.
  - rewrite Hu. simpl. eauto.
Qed.

(** Deleting a save token.  The body is decoded first, so a body that
    does not decode ends in the error handler whatever the headers are.
    For the account's bearer token: a token other than the stored one is
    answered 0 and changes nothing; the stored one is answered 1 and the
    stored token becomes the empty string, after which the same
    non-empty token is answered 0.  The token that the token route has
    just issued is answered 1. *)
Theorem delete_token_lifecycle w nowMs rnd uuid hostname mayhemId h body :
  (decodeDeleteTokenRequest body = None →
   post_deleteToken w mayhemId h body = (Next, w))
  ∧ ∀ token reqToken userData,
      decodeDeleteTokenRequest body = Some token →
      present (reqToken2 h) = Some reqToken →
      userByMayhemId (users w) mayhemId = Some userData →
      UserAccessToken userData = Some reqToken →
      let r := post_deleteToken w mayhemId h body in
      (WholeLandToken userData ≠ Some token →
       r = (Protobuf (encodeDeleteTokenResponse "0"), w))
      ∧ (WholeLandToken userData = Some token →
         r.1 = Protobuf (encodeDeleteTokenResponse "1")
         ∧ (∃ u, userByMayhemId (users r.2) mayhemId = Some u
                 ∧ WholeLandToken u = Some "")
         ∧ (token ≠ "" →
            (post_deleteToken r.2 mayhemId h body).1
            = Protobuf (encodeDeleteTokenResponse "0")))
      ∧ (token = uuid →
         (post_deleteToken
            (post_protoWholeLandToken w nowMs rnd uuid hostname mayhemId h).2
            mayhemId h body).1
         = Protobuf (encodeDeleteTokenResponse "1")).
Proof.
  split.
  { intros Hd. unfold post_deleteToken. by rewrite Hd. }
  intros token reqToken userData Hd Htok Hu Hacc r. subst r.
  assert (Hrun : ∀ w0 u0,
            userByMayhemId (users w0) mayhemId = Some u0 →
            UserAccessToken u0 = Some reqToken →
            post_deleteToken w0 mayhemId h body =
              if bool_decide (Some token = WholeLandToken u0)
              then (Protobuf (encodeDeleteTokenResponse "1"),
                    with_users w0 (update_user (set_WholeLandToken (Some ""))
                                     (Some mayhemId) (users w0)))
              else (Protobuf (encodeDeleteTokenResponse "0"), w0)).
  { intros w0 u0 Hu0 Hacc0. unfold post_deleteToken. rewrite Hd, Htok, Hu0.
    unfold strict_eq. rewrite (bool_decide_eq_true_2 (Some reqToken = _)) by done.
    simpl. by destruct (bool_decide (Some token = WholeLandToken u0)). }
  split; [|split].
  - intros Hne. rewrite (Hrun w userData Hu Hacc).
    by rewrite bool_decide_eq_false_2.
  - intros Heq. rewrite (Hrun w userData Hu Hacc).
    rewrite bool_decide_eq_true_2 by done. simpl.
    assert (Hu1 : userByMayhemId
                    (update_user (set_WholeLandToken (Some "")) (Some mayhemId)
                       (users w)) mayhemId
                  = Some (set_WholeLandToken (Some "") userData)).
    { rewrite userByMayhemId_update by done. by rewrite Hu. }
    split; [done|]. split; [eauto|].
    intros Hne. erewrite Hrun; [|exact Hu1|done]. simpl.
    rewrite bool_decide_eq_false_2; [done|]. congruence.
  - intros ->.
    destruct (issue_token_stored w nowMs rnd uuid hostname mayhemId h reqToken
                userData Htok Hu Hacc) as (u & Hu1 & Hw & Ha).
    rewrite (Hrun _ u Hu1 Ha). by rewrite bool_decide_eq_true_2.
Qed.

End token_more.

(** ** The currency file *)

Section currency_more.
Context `{Platform}.
Import Currency.

Lemma donutDelta_app d1 d2 : donutDelta (d1 ++ d2) = donutDelta d1 + donutDelta d2.
Proof.
  rewrite !donutDelta_sum. induction d1 as [|c d1 IH]; simpl; [done|].
  rewrite IH. lia.
Qed.

Lemma applyDelta_compose t1 t2 cd d1 d2 :
  applyDelta t2 (applyDelta t1 cd d1) d2 = applyDelta t2 cd (d1 ++ d2).
Proof.
  unfold applyDelta. simpl. rewrite donutDelta_app.
  by rewrite Z.add_assoc.
Qed.

(** The record that [ensureCurrencyFile] writes. *)
Lemma ensure_fresh (w : World) nowMs landId path start :
  match files w !! path with
  | None => True
  | Some f => byteLength f = 0%nat
  end →
  files (ensureCurrencyFile w nowMs landId path start) !! path
  = Some (encodeCurrency
            {| currency_id := landId; vcTotalPurchased := 0;
               vcTotalAwarded := start; vcBalance := start;
               currency_createdAt := 1715911362; currency_updatedAt := nowMs |})
  ∧ users (ensureCurrencyFile w nowMs landId path start) = users w.
Proof.
  intros Hf. unfold ensureCurrencyFile.
  destruct (files w !! path) as [f|]; simpl.
  - rewrite Hf. simpl. by rewrite lookup_insert_eq.
  - by rewrite lookup_insert_eq.
Qed.

Lemma ensure_keeps (w : World) nowMs landId path start f :
  files w !! path = Some f → (0 < byteLength f)%nat →
  ensureCurrencyFile w nowMs landId path start = w.
Proof.
  intros Hf Hl. unfold ensureCurrencyFile. rewrite Hf.
  by rewrite bool_decide_eq_true_2.
Qed.

Lemma extraLandUpdate_registered w nowMs landId h body reqToken userData path file
    cd msg :
  present (reqToken2 h) = Some reqToken →
  userByMayhemId (users w) landId = Some userData →
  UserAccessToken userData = Some reqToken →
  present (CurrencySavePath userData) = Some path →
  files (ensureCurrencyFile w nowMs landId path startingDonuts) !! path = Some file →
  decodeCurrency file = Some cd →
  decodeExtraLand body = Some msg →
  (post_extraLandUpdate w nowMs landId h body).1
  = Protobuf (encodeExtraLandResponse
                {| processedCurrencyDelta := processed (currencyDelta msg);
                   processedEvent := []; receivedEvent := []; communityGoal := [] |})
  ∧ files (post_extraLandUpdate w nowMs landId h body).2 !! path
    = Some (encodeCurrency (applyDelta nowMs cd (currencyDelta msg)))
  ∧ users (post_extraLandUpdate w nowMs landId h body).2
    = users (ensureCurrencyFile w nowMs landId path startingDonuts).
Proof.
  intros Htok Hu Hacc Hpath Hfile Hcd Hmsg.
  unfold post_extraLandUpdate. rewrite Htok, Hu. unfold strict_eq.
  rewrite bool_decide_eq_true_2 by done. simpl.
  rewrite Hpath. rewrite Hmsg, Hfile, Hcd.
  destruct (truthy_onum (UserId userData)); simpl;
    by rewrite lookup_insert_eq.
Qed.

Context `{!CurrencyRoundTrip}.

(** Two currency updates in a row leave the file that one update with
    the two batches joined would leave: the awarded total and the
    balance grow by the sum of all amounts, and the time stamp is that
    of the second update.  The record written by the first update has to
    have a length, since a file of length zero is initialised again. *)
Theorem currency_updates_compose w t1 t2 landId h body1 body2 reqToken userData
    path file cd m1 m2 :
  present (reqToken2 h) = Some reqToken →
  userByMayhemId (users w) landId = Some userData →
  UserAccessToken userData = Some reqToken →
  present (CurrencySavePath userData) = Some path →
  files w !! path = Some file → (0 < byteLength file)%nat →
  decodeCurrency file = Some cd →
  decodeExtraLand body1 = Some m1 →
  decodeExtraLand body2 = Some m2 →
  (0 < byteLength (encodeCurrency (applyDelta t1 cd (currencyDelta m1))))%nat →
  let w1 := (post_extraLandUpdate w t1 landId h body1).2 in
  let w2 := (post_extraLandUpdate w1 t2 landId h body2).2 in
  files w2 !! path
  = Some (encodeCurrency (applyDelta t2 cd (currencyDelta m1 ++ currencyDelta m2)))
  ∧ vcTotalAwarded (applyDelta t2 cd (currencyDelta m1 ++ currencyDelta m2))
    = vcTotalAwarded cd + donutDelta (currencyDelta m1) + donutDelta (currencyDelta m2).
Proof.
  intros Htok Hu Hacc Hpath Hfile Hlen Hcd Hm1 Hm2 Hlen1 w1 w2.
  split; [|simpl; rewrite donutDelta_app; lia].
  assert (He : ensureCurrencyFile w t1 landId path startingDonuts = w)
    by (by eapply ensure_keeps).
  destruct (extraLandUpdate_registered w t1 landId h body1 reqToken userData path
              file cd m1) as (_ & Hf1 & Hu1); try done.
  { by rewrite He. }
  fold w1 in Hf1, Hu1. rewrite He in Hu1.
  set (cd1 := applyDelta t1 cd (currencyDelta m1)) in *.
  assert (Hafter : ∃ f2, files (ensureCurrencyFile w1 t2 landId path startingDonuts)
                           !! path = Some f2
                         ∧ ∃ c2, decodeCurrency f2 = Some c2
                                 ∧ applyDelta t2 c2 (currencyDelta m2)
                                   = applyDelta t2 cd1 (currencyDelta m2)).
  { rewrite (ensure_keeps w1 t2 landId path startingDonuts _ Hf1 Hlen1).
    exists (encodeCurrency cd1). split; [done|]. exists cd1.
    by rewrite currency_round_trip. }
  destruct Hafter as (f2 & Hf2 & c2 & Hc2 & Happ).
  destruct (extraLandUpdate_registered w1 t2 landId h body2 reqToken userData path
              f2 c2 m2) as (_ & Hres & _); try done.
  { by rewrite Hu1. }
  subst w2. rewrite Hres, Happ. subst cd1. by rewrite applyDelta_compose.
Qed.

Lemma player_file_truthy id ext :
  present (Some (player_file id ext)) = Some (player_file id ext).
Proof.
  unfold present, truthy_ostr, truthy_str.
  rewrite bool_decide_eq_false_2; [done|].
  unfold player_file. destruct dataDirectory; simpl; discriminate.
Qed.

(** The currency file that provisioning leaves has length zero.  The
    first update of an account whose path is registered and whose file
    is missing or empty starts from the configured amount: it answers
    with the processed deltas and writes the configured amount plus the
    sum of the batch as awarded total and as balance, with nothing
    purchased. *)
Theorem first_update_starts_from_config w nowMs landId h body reqToken userData
    path msg :
  present (reqToken2 h) = Some reqToken →
  userByMayhemId (users w) landId = Some userData →
  UserAccessToken userData = Some reqToken →
  present (CurrencySavePath userData) = Some path →
  match files w !! path with
  | None => True
  | Some f => byteLength f = 0%nat
  end →
  decodeExtraLand body = Some msg →
  let r := post_extraLandUpdate w nowMs landId h body in
  r.1 = Protobuf (encodeExtraLandResponse
                    {| processedCurrencyDelta := processed (currencyDelta msg);
                       processedEvent := []; receivedEvent := [];
                       communityGoal := [] |})
  ∧ files r.2 !! path
    = Some (encodeCurrency
              {| currency_id := landId; vcTotalPurchased := 0;
                 vcTotalAwarded := startingDonuts + donutDelta (currencyDelta msg);
                 vcBalance := startingDonuts + donutDelta (currencyDelta msg);
                 currency_createdAt := 1715911362; currency_updatedAt := nowMs |}).
Proof.
  intros Htok Hu Hacc Hpath Hfile Hmsg r. subst r.
  destruct (ensure_fresh w nowMs landId path startingDonuts Hfile) as [Hf _].
  destruct (extraLandUpdate_registered w nowMs landId h body reqToken userData path
              _ (opening landId nowMs) msg Htok Hu Hacc Hpath Hf)
    as (Hr & Hw & _); [apply currency_round_trip | done |].
  by rewrite Hr, Hw.
Qed.

(** An account without a registered currency path: the first update
    registers the default path and initialises the file, and then fails,
    because it reads through the path as it was selected; nothing is
    credited.  The same request sent again succeeds and credits the
    batch once. *)
Theorem unregistered_update_fails_once w t1 t2 landId h body reqToken userData msg :
  present (reqToken2 h) = Some reqToken →
  userByMayhemId (users w) landId = Some userData →
  UserAccessToken userData = Some reqToken →
  present (CurrencySavePath userData) = None →
  files w !! player_file landId ".currency" = None →
  decodeExtraLand body = Some msg →
  let path := player_file landId ".currency" in
  let r1 := post_extraLandUpdate w t1 landId h body in
  let r2 := post_extraLandUpdate r1.2 t2 landId h body in
  r1.1 = Next
  ∧ files r1.2 !! path = Some (encodeCurrency (opening landId t1))
  ∧ (∃ u, userByMayhemId (users r1.2) landId = Some u
          ∧ CurrencySavePath u = Some path)
  ∧ r2.1 = Protobuf (encodeExtraLandResponse
                       {| processedCurrencyDelta := processed (currencyDelta msg);
                          processedEvent := []; receivedEvent := [];
                          communityGoal := [] |})
  ∧ files r2.2 !! path
    = Some (encodeCurrency
              {| currency_id := landId; vcTotalPurchased := 0;
                 vcTotalAwarded := startingDonuts + donutDelta (currencyDelta msg);
                 vcBalance := startingDonuts + donutDelta (currencyDelta msg);
                 currency_createdAt := 1715911362; currency_updatedAt := t2 |}).
Proof.
  intros Htok Hu Hacc Hpath Hfile Hmsg path r1 r2.
  assert (H1 : r1 = (Next,
                     ensureCurrencyFile
                       (with_users w
                          (update_user (set_CurrencySavePath (Some path))
                             (Some landId) (users w)))
                       t1 landId path startingDonuts)).
  { subst r1. unfold post_extraLandUpdate. rewrite Htok, Hu. unfold strict_eq.
    rewrite bool_decide_eq_true_2 by done. simpl.
    rewrite Hpath. by rewrite Hmsg. }
  set (w0 := with_users w (update_user (set_CurrencySavePath (Some path))
                             (Some landId) (users w))) in *.
  destruct (ensure_fresh w0 t1 landId path startingDonuts) as [Hf1 Hu1].
  { simpl. fold path in Hfile. by rewrite Hfile. }
  assert (Huser : userByMayhemId (users r1.2) landId
                  = Some (set_CurrencySavePath (Some path) userData)).
  { rewrite H1. simpl. rewrite Hu1. simpl.
    rewrite userByMayhemId_update by done. by rewrite Hu. }
  split; [by rewrite H1|]. split; [by rewrite H1|]. split; [eauto|].
  assert (Hafter : ∃ f2 c2,
            files (ensureCurrencyFile r1.2 t2 landId path startingDonuts) !! path
            = Some f2
            ∧ decodeCurrency f2 = Some c2
            ∧ applyDelta t2 c2 (currencyDelta msg)
              = applyDelta t2 (opening landId t2) (currencyDelta msg)).
  { assert (Hf1' : files r1.2 !! path = Some (encodeCurrency (opening landId t1)))
      by (rewrite H1; exact Hf1).
    destruct (decide (0 < byteLength (encodeCurrency (opening landId t1)))%nat)
      as [Hl|Hl].
    - rewrite (ensure_keeps r1.2 t2 landId path startingDonuts _ Hf1' Hl).
      eexists _, _. split; [exact Hf1'|].
      split; [apply currency_round_trip|done].
    - destruct (ensure_fresh r1.2 t2 landId path startingDonuts) as [Hf2 _].
      { rewrite Hf1'. lia. }
      eexists _, _. split; [exact Hf2|].
      split; [apply currency_round_trip|done]. }
  destruct Hafter as (f2 & c2 & Hf2 & Hc2 & Happ).
  destruct (extraLandUpdate_registered r1.2 t2 landId h body reqToken
              (set_CurrencySavePath (Some path) userData) path f2 c2 msg)
    as (Hr & Hw & _); try done.
  { simpl. apply player_file_truthy. }
  subst r2. rewrite Hr, Hw, Happ. done.
Qed.

(** A request that does not carry the account's bearer token has no
    effect: the currency update and the token route answer it with an
    error and leave the world as it was, and the token deletion leaves
    the world as it was whatever its body is. *)
Theorem unauthenticated_requests_change_nothing `{!TokenCodec} w nowMs rnd uuid
    hostname landId h body :
  match present (reqToken2 h) with
  | Some reqToken =>
      match userByMayhemId (users w) landId with
      | Some userData => UserAccessToken userData ≠ Some reqToken
      | None => True
      end
  | None => True
  end →
  let rejected (r : Response) :=
    r = XmlError 400 "MISSING_VALUE" "nucleus_token"
    ∨ r = XmlError 404 "NOT_FOUND" "mayhemId"
    ∨ (∃ field, r = XmlError 400 "BAD_REQUEST" field) in
  (rejected (post_extraLandUpdate w nowMs landId h body).1
   ∧ (post_extraLandUpdate w nowMs landId h body).2 = w)
  ∧ (rejected (Land.post_protoWholeLandToken w nowMs rnd uuid hostname landId h).1
     ∧ (Land.post_protoWholeLandToken w nowMs rnd uuid hostname landId h).2 = w)
  ∧ (Land.post_deleteToken w landId h body).2 = w.
Proof.
  intros Hbad rejected. subst rejected.
  unfold post_extraLandUpdate, Land.post_protoWholeLandToken, Land.post_deleteToken.
  destruct (present (reqToken2 h)) as [reqToken|].
  2:{ destruct (decodeDeleteTokenRequest body); simpl;
        repeat (split; try done); by left. }
  destruct (userByMayhemId (users w) landId) as [userData|].
  2:{ destruct (decodeDeleteTokenRequest body); simpl;
        repeat (split; try done); by (right; left). }
  unfold strict_eq.
  rewrite (bool_decide_eq_false_2 (Some reqToken = UserAccessToken userData))
    by congruence.
  destruct (decodeDeleteTokenRequest body); simpl;
    repeat (split; try done); right; right; eexists; reflexivity.
Qed.

End currency_more.

(** ** The further properties on the reference platform *)

Section more_examples.
Import Reference Friends.



Lemma deleteFriend_clears_witness :
  let t := (post_friends_deleteFriend [alice; bob]
              [row "42" "43" "accepted"; row "43" "42" "accepted"]
              (bearer "token42") {[ "friendId" := "43" ]}).2 in
  isAccepted t (ownerId alice) "43" = false
  ∧ isAccepted t "43" (ownerId alice) = false.
Proof.
  refine (deleteFriend_clears [alice; bob]
            [row "42" "43" "accepted"; row "43" "42" "accepted"]
            (bearer "token42") {[ "friendId" := "43" ]} "token42" alice "43" _ _ _);
    vm_compute; reflexivity.
Defined.

Lemma legacy_accept_one_direction_witness :
  let body : Body := <["fromId":="42"]> {[ "acceptorId" := "43" ]} in
  let r := post_friend_accept [row "42" "43" "pending"] body in
  isAccepted r.2 "42" "43" = true
  ∧ isAccepted r.2 "43" "42" = isAccepted [row "42" "43" "pending"] "43" "42".
Proof.
  intros body r.
  destruct (legacy_accept_one_direction [row "42" "43" "pending"] body "42" "43")
    as [_ Hyes]; try (vm_compute; reflexivity).
  destruct Hyes as (_ & _ & Hacc & Hframe); [vm_compute; reflexivity|].
  split; [exact Hacc|]. apply Hframe. discriminate.
Defined.

Lemma legacy_remove_one_direction_witness :
  let body : Body := <["fromId":="42"]> {[ "toId" := "43" ]} in
  let t := [row "42" "43" "accepted"; row "43" "42" "accepted"] in
  isAccepted (post_friend_remove t body).2 "42" "43" = false
  ∧ isAccepted (post_friend_remove t body).2 "43" "42" = isAccepted t "43" "42".
Proof.
  intros body t.
  destruct (legacy_remove_one_direction t body "42" "43")
    as (_ & Hyes & Hframe); try (vm_compute; reflexivity).
  destruct Hyes as [_ Hoff]; [vm_compute; reflexivity|].
  split; [exact Hoff|]. apply Hframe. discriminate.
Defined.



Lemma corrupt_mailbox_recovers_witness :
  Events.get_event_protoland world_corrupt "42"
  = (Protobuf (BEvents []), world_corrupt).
Proof.
  refine (proj1 (corrupt_mailbox_recovers world_corrupt "42" (BRaw [])
                   ("id-1", bearer "token43", BEvent (event "43" "42"))
                   (Events.stamp "id-1" "42" (event "43" "42")) _ _ _));
    try (vm_compute; reflexivity).
  split; [vm_compute; discriminate|].
  eexists. split; [reflexivity|]. split; reflexivity.
Defined.

Lemma write_then_read_witness :
  (Land.get_protoland (Land.put_protoland world0 "42" (bearer "token42") (BLand town)).2
     7 "r" "host" "42" (bearer "token42")).1
  = Protobuf (BLand {| land_id := "42"; friendListData := []; land_fields := [] |}).
Proof.
  refine (proj2 (write_then_read world0 7 "r" "host" "42" (bearer "token42")
                   (BLand town) "token42" alice town _ _ _ _ _ _ _));
    try (vm_compute; reflexivity); try (vm_compute; discriminate).
  intros u n Hin Hn.
  repeat (apply elem_of_cons in Hin as [->|Hin];
          [injection Hn as <-; vm_compute; reflexivity|]).
  by apply elem_of_nil in Hin.
Defined.

Lemma delete_token_lifecycle_witness :
  (Land.post_deleteToken world0 "42" (bearer "token42") (BToken "T1" "")).1
  = Protobuf (BToken "1" "").
Proof.
  refine (proj1 (proj1 (proj2 (proj2 (delete_token_lifecycle world0 0 "r" "T9" "host"
                                        "42" (bearer "token42") (BToken "T1" ""))
                                 "T1" "token42" alice _ _ _ _)) _));
    vm_compute; reflexivity.
Defined.

Lemma currency_updates_compose_witness :
  let w1 := (Currency.post_extraLandUpdate world44 7 "44" (bearer "token44")
               (BExtraLand batch)).2 in
  files (Currency.post_extraLandUpdate w1 9 "44" (bearer "token44")
           (BExtraLand batch)).2 !! "data/44/44.currency"
  = Some (BCurrency (Currency.applyDelta 9 purse
                       (currencyDelta batch ++ currencyDelta batch))).
Proof.
  intros w1.
  refine (proj1 (currency_updates_compose world44 7 9 "44" (bearer "token44")
                   (BExtraLand batch) (BExtraLand batch) "token44" carl
                   "data/44/44.currency" (BCurrency purse) purse batch batch
                   _ _ _ _ _ _ _ _ _ _));
    try (vm_compute; reflexivity).
  all: vm_compute; lia.
Defined.

Lemma first_update_starts_from_config_witness :
  files (Currency.post_extraLandUpdate world46 7 "46" (bearer "token46")
           (BExtraLand batch)).2 !! "data/46/46.currency"
  = Some (BCurrency
            {| currency_id := "46"; vcTotalPurchased := 0; vcTotalAwarded := 3;
               vcBalance := 3; currency_createdAt := 1715911362;
               currency_updatedAt := 7 |}).
Proof.
  refine (proj2 (first_update_starts_from_config world46 7 "46" (bearer "token46")
                   (BExtraLand batch) "token46" erin "data/46/46.currency" batch
                   _ _ _ _ _ _));
    vm_compute; reflexivity.
Defined.

Lemma unregistered_update_fails_once_witness :
  (Currency.post_extraLandUpdate world0 7 "42" (bearer "token42")
     (BExtraLand batch)).1 = Next.
Proof.
  refine (proj1 (unregistered_update_fails_once world0 7 9 "42" (bearer "token42")
                   (BExtraLand batch) "token42" alice batch _ _ _ _ _ _));
    vm_compute; reflexivity.
Defined.

Lemma unauthenticated_requests_change_nothing_witness :
  (Currency.post_extraLandUpdate world44 7 "44" (bearer "token43")
     (BExtraLand batch)).2 = world44.
Proof.
  refine (proj2 (proj1 (unauthenticated_requests_change_nothing world44 7 "r" "T9"
                          "host" "44" (bearer "token43") (BExtraLand batch) _))).
  vm_compute. discriminate.
Defined.

End more_examples.
